(** * Health sensor data analysis: a shallow embedding of
      [analyze_health_data.py] and the properties of its pipeline

    The script loads a CSV file into a NumPy structured array, averages
    three integer columns, counts the readings above fixed thresholds,
    renders a text report and writes it to a file.

    Conventions of the embedding:
    - a Python [int] is a [Z]; an [i4] column holds values of the
      signed 32-bit range, a fact stated as a hypothesis where it matters;
    - a [float64] is a [spec_float] of the Standard Library's IEEE 754
      specification at precision 53 and maximal exponent 1024;
    - a [str] is a [string];
    - the two result dictionaries have fixed keys and are records;
    - a NumPy array is an object on a heap, reached through a reference;
    - the file system, the console and the heap form the [World] that
      the effectful functions thread through. *)

From Stdlib Require Import ZArith NArith List String Ascii Bool Lia.
From Stdlib Require Import QArith Qabs Lqa.
From Stdlib Require Import Floats.SpecFloat.
From stdpp Require Import gmap strings.

Local Open Scope Z_scope.

(** ** Text *)

Module Text.

Definition newline : ascii := "010"%char.

Definition is_newline (c : ascii) : bool := Ascii.eqb c newline.

(** [str.split("\n")]: the pieces between line feeds; a text that ends
    with a line feed has an empty last piece. *)
Fixpoint lines (s : string) : list string :=
  match s with
  | EmptyString => [EmptyString]
  | String c r =>
      if is_newline c then EmptyString :: lines r
      else match lines r with
           | l :: ls => String c l :: ls
           | [] => [String c EmptyString]
           end
  end.

Fixpoint no_newline (s : string) : bool :=
  match s with
  | EmptyString => true
  | String c r => negb (is_newline c) && no_newline r
  end.

(** [s.startswith(p)] returning the remainder of [s] after [p]. *)
Fixpoint strip_prefix (p s : string) : option string :=
  match p, s with
  | EmptyString, _ => Some s
  | String a p', String b s' =>
      if Ascii.eqb a b then strip_prefix p' s' else None
  | String _ _, EmptyString => None
  end.

(** The decimal digit of a value below ten. *)
Definition digit_char (d : N) : ascii := ascii_of_N (48 + d).

Definition digit_value (c : ascii) : option N :=
  let n := N_of_ascii c in
  if ((48 <=? n) && (n <=? 57))%N then Some (n - 48)%N else None.

Definition is_digit (c : ascii) : bool :=
  match digit_value c with Some _ => true | None => false end.

(** Decimal digits of [n], most significant first, put in front of
    [acc]; [fuel] bounds the number of digits. *)
Fixpoint digits_of (fuel : nat) (n : N) (acc : string) : string :=
  match fuel with
  | O => acc
  | S f =>
      let acc' := String (digit_char (n mod 10)) acc in
      if (n / 10 =? 0)%N then acc' else digits_of f (n / 10) acc'
  end.

Definition string_of_N (n : N) : string :=
  digits_of (S (N.to_nat (N.log2 n))) n EmptyString.

(** [str(i)] for a Python integer. *)
Definition string_of_Z (z : Z) : string :=
  match z with
  | Z0 => "0"
  | Zpos p => string_of_N (Npos p)
  | Zneg p => String "-" (string_of_N (Npos p))
  end.

(** Reading a run of decimal digits, left to right. *)
Fixpoint parse_digits (s : string) (acc : N) : option N :=
  match s with
  | EmptyString => Some acc
  | String c r =>
      match digit_value c with
      | Some d => parse_digits r (10 * acc + d)%N
      | None => None
      end
  end.

Definition parse_N (s : string) : option N :=
  match s with
  | EmptyString => None
  | _ => parse_digits s 0%N
  end.

(** [int(s)] on an optional minus sign followed by digits. *)
Definition parse_Z (s : string) : option Z :=
  match s with
  | String "-" r => option_map (fun n => - Z.of_N n) (parse_N r)
  | _ => option_map Z.of_N (parse_N s)
  end.

Fixpoint all_digits (s : string) : bool :=
  match s with
  | EmptyString => true
  | String c r => is_digit c && all_digits r
  end.

End Text.

(** ** Data model *)

(** One row of the structured array, with the fields of the [dtype] of
    [load_data]: [U10], [U20], [i4], [i4], [i4], [f4], [i4], [U10]. *)
Record Reading := mkReading {
  patient_id : string;
  timestamp : string;
  heart_rate : Z;
  blood_pressure_systolic : Z;
  blood_pressure_diastolic : Z;
  temperature : spec_float;
  glucose_level : Z;
  sensor_id : string
}.

(** The rows of a dataset, in the order of the file. *)
Definition Dataset := list Reading.

(** A structured array as [np.genfromtxt] builds it. With the default
    [ndmin=0] the axes of length one are dropped from the result, so the
    array of a file with exactly one data row has no dimension; every
    other array is one-dimensional. *)
Inductive ndarray :=
| Array0d (row : Reading)
| Array1d (rows : Dataset).

Definition rows_of (arr : ndarray) : Dataset :=
  match arr with
  | Array0d row => [row]
  | Array1d rows => rows
  end.

Definition squeeze (rows : Dataset) : ndarray :=
  match rows with
  | [row] => Array0d row
  | _ => Array1d rows
  end.

(** The dictionary returned by [calculate_statistics]. *)
Record StatisticsSummary := mkStats {
  avg_heart_rate : string;
  avg_systolic_bp : string;
  avg_glucose : string
}.

(** The dictionary returned by [find_abnormal_readings]. *)
Record AbnormalityCounts := mkCounts {
  high_heart_rate : Z;
  high_blood_pressure : Z;
  high_glucose : Z
}.

Definition int32 (z : Z) : Prop := - 2 ^ 31 <= z < 2 ^ 31.

Definition int32_columns (data : Dataset) : Prop :=
  Forall (fun r => int32 (heart_rate r) /\
                   int32 (blood_pressure_systolic r) /\
                   int32 (glucose_level r)) data.

(** ** Floating point *)

Module Float64.

Definition prec : Z := 53.
Definition emax : Z := 1024.

(** Conversion of an integer to [float64], rounding to nearest even;
    exact below [2 ^ 53] in size. *)
Definition of_Z (z : Z) : spec_float := binary_normalize prec emax z 0 false.

Definition div (x y : spec_float) : spec_float := SFdiv prec emax x y.

(** The quotient [n / d] rounded to the nearest integer, ties to the
    even one; [d] is positive. *)
Definition round_half_even_div (n d : Z) : Z :=
  let q := n / d in
  let r := n mod d in
  match 2 * r ?= d with
  | Lt => q
  | Gt => q + 1
  | Eq => if Z.even q then q else q + 1
  end.

(** The number of tenths that [m * 2 ^ e] rounds to. *)
Definition tenths (m : positive) (e : Z) : Z :=
  if 0 <=? e then 10 * Zpos m * 2 ^ e
  else round_half_even_div (10 * Zpos m) (2 ^ (- e)).

Definition format_tenths (s : bool) (t : Z) : string :=
  ((if s then "-" else "") ++
   Text.string_of_N (Z.to_N (t / 10)) ++ "." ++
   String (Text.digit_char (Z.to_N (t mod 10))) "")%string.

(** [f"{x:.1f}"] on a float: the shortest way to say it is that the
    exact binary value is rounded to one decimal, ties to even, and the
    sign of the float is kept even when the digits are all zero. *)
Definition format_1f (x : spec_float) : string :=
  match x with
  | S754_nan => "nan"
  | S754_infinity s => if s then "-inf" else "inf"
  | S754_zero s => format_tenths s 0
  | S754_finite s m e => format_tenths s (tenths m e)
  end.

(** The rational value of a finite float; 0 for the others. *)
Definition to_Q (x : spec_float) : Q :=
  match x with
  | S754_finite s m e =>
      let a := if 0 <=? e then inject_Z (Zpos m * 2 ^ e)
               else Qmake (Zpos m) (Z.to_pos (2 ^ (- e))) in
      if s then Qopp a else a
  | _ => 0%Q
  end.

End Float64.

(** ** NumPy column operations *)

(** [arr['name']]: the values of one field, for either shape. *)
Definition column (f : Reading -> Z) (arr : ndarray) : list Z :=
  map f (rows_of arr).

Definition int_sum (col : list Z) : Z := fold_right Z.add 0 col.

(** [col.mean()] on an integer column. NumPy adds the elements in a
    [float64] accumulator and divides the total by the number of
    elements. Every partial sum of fewer than [2 ^ 22] values of the
    [i4] range is an integer below [2 ^ 53] in size, which [float64] holds
    exactly in whatever order the additions are made (this is
    [float64_sum_exact] below), so the accumulator is the [float64] of
    the integer sum. An empty column gives [0.0 / 0], not-a-number. *)
Definition np_mean (col : list Z) : spec_float :=
  Float64.div (Float64.of_Z (int_sum col))
              (Float64.of_Z (Z.of_nat (length col))).

(** An order in which the values of a column are added up: NumPy adds
    pairwise and in blocks, a loop would add from left to right. *)
Inductive summation :=
| Term (v : Z)
| Plus (l r : summation).

Fixpoint terms (t : summation) : list Z :=
  match t with
  | Term v => [v]
  | Plus l r => terms l ++ terms r
  end.

(** The sum carried out in [float64] in that order. *)
Fixpoint float64_sum (t : summation) : spec_float :=
  match t with
  | Term v => Float64.of_Z v
  | Plus l r => SFadd Float64.prec Float64.emax (float64_sum l) (float64_sum r)
  end.

(** [col > threshold]: the element-wise mask. *)
Definition np_greater (col : list Z) (threshold : Z) : list bool :=
  map (fun v => threshold <? v) col.

(** [mask.sum()]: the number of [True] entries. *)
Definition np_sum_bool (mask : list bool) : Z :=
  fold_right (fun b acc => Z.b2z b + acc) 0 mask.

(** ** The world and its effects *)

Inductive exn :=
| FileNotFoundError (path : string)
| ValueError (msg : string)
| TypeError (msg : string)
| InvalidReference (addr : nat).

Inductive result (A : Type) :=
| Ok (a : A)
| Raise (e : exn).

Arguments Ok {A} a.
Arguments Raise {A} e.

(** [arrays]: the NumPy arrays alive on the heap; [files]: the text
    files by path; [dirs]: the directories that exist and can be written
    to, besides the working directory; [stdout]: the lines printed. *)
Record World := mkWorld {
  arrays : gmap nat ndarray;
  files : gmap string string;
  dirs : gset string;
  stdout : list string
}.

Definition M (A : Type) : Type := World -> result A * World.

Definition ret {A} (a : A) : M A := fun w => (Ok a, w).

Definition bind {A B} (m : M A) (k : A -> M B) : M B :=
  fun w =>
    match m w with
    | (Ok a, w') => k a w'
    | (Raise e, w') => (Raise e, w')
    end.

Notation "'do' x <- m ; k" := (bind m (fun x => k))
  (at level 10, x name, m at level 100, k at level 200).
Notation "'do_' m ; k" := (bind m (fun _ => k))
  (at level 10, m at level 100, k at level 200).

Definition raise {A} (e : exn) : M A := fun w => (Raise e, w).

(** A new array object at an address not in use. *)
Definition new_array (arr : ndarray) : M nat :=
  fun w =>
    let addr := fresh (dom (arrays w)) in
    (Ok addr, mkWorld (<[addr := arr]> (arrays w)) (files w) (dirs w) (stdout w)).

Definition read_array (addr : nat) : M ndarray :=
  fun w =>
    match arrays w !! addr with
    | Some arr => (Ok arr, w)
    | None => (Raise (InvalidReference addr), w)
    end.

(** [len(data)]: the length of the first axis; an array without
    dimension has none. *)
Definition len (data : nat) : M Z :=
  do arr <- read_array data;
  match arr with
  | Array1d rows => ret (Z.of_nat (length rows))
  | Array0d _ => raise (TypeError "len() of unsized object")
  end.

Definition read_text (filename : string) : M string :=
  fun w =>
    match files w !! filename with
    | Some text => (Ok text, w)
    | None => (Raise (FileNotFoundError filename), w)
    end.

(** The path up to its last slash. *)
Fixpoint dirname (path : string) : string :=
  match path with
  | EmptyString => EmptyString
  | String c rest =>
      if existsb (Ascii.eqb "/") (list_ascii_of_string rest)
      then String c (dirname rest)
      else EmptyString
  end.

Definition dir_exists (w : World) (d : string) : bool :=
  String.eqb d "" || bool_decide (d ∈ dirs w).

(** [open(filename, 'w')] followed by [f.write(text)]: the file is
    created or its old content dropped. *)
Definition write_text (filename text : string) : M unit :=
  fun w =>
    if dir_exists w (dirname filename)
    then (Ok tt, mkWorld (arrays w) (<[filename := text]> (files w)) (dirs w) (stdout w))
    else (Raise (FileNotFoundError filename), w).

Definition print (line : string) : M unit :=
  fun w => (Ok tt, mkWorld (arrays w) (files w) (dirs w) (stdout w ++ [line])).

(** ** The script *)

Section Script.

(** What [np.genfromtxt] with [delimiter=','], the [dtype] of
    [load_data] and [skip_header=1] makes of the text of a file: the rows
    it parses, or the exception it raises. *)
Variable parse_csv : string -> result Dataset.

Definition genfromtxt (filename : string) : M nat :=
  do text <- read_text filename;
  match parse_csv text with
  | Ok rows => new_array (squeeze rows)
  | Raise e => raise e
  end.

Definition load_data (filename : string) : M nat :=
  do data <- genfromtxt filename;
  ret data.

Definition calculate_statistics (data : nat) : M StatisticsSummary :=
  do arr <- read_array data;
  let avg_heart_rate := np_mean (column heart_rate arr) in
  let avg_systolic_bp := np_mean (column blood_pressure_systolic arr) in
  let avg_glucose := np_mean (column glucose_level arr) in
  ret {| avg_heart_rate := Float64.format_1f avg_heart_rate;
         avg_systolic_bp := Float64.format_1f avg_systolic_bp;
         avg_glucose := Float64.format_1f avg_glucose |}.

Definition find_abnormal_readings (data : nat) : M AbnormalityCounts :=
  do arr <- read_array data;
  let high_hr_count := np_sum_bool (np_greater (column heart_rate arr) 90) in
  let high_bp_count := np_sum_bool (np_greater (column blood_pressure_systolic arr) 130) in
  let high_glucose_count := np_sum_bool (np_greater (column glucose_level arr) 110) in
  ret {| high_heart_rate := high_hr_count;
         high_blood_pressure := high_bp_count;
         high_glucose := high_glucose_count |}.

Definition generate_report (stats : StatisticsSummary)
    (abnormal : AbnormalityCounts) (total_readings : Z) : string :=
  String.concat "" [
    "Health Sensor Data Analysis Report"; "
";  "=================================="; "
";  "
";  "Dataset Summary:"; "
";  "- Total readings: "; Text.string_of_Z total_readings; "
";  "
";  "Average Measurements:"; "
";  "- Heart Rate: "; avg_heart_rate stats; " bpm"; "
";  "- Systolic Blood Pressure: "; avg_systolic_bp stats; " mmHg"; "
";  "- Glucose Level: "; avg_glucose stats; " mg/dL"; "
";  "
";  "Abnormal Readings:"; "
";  "- High Heart Rate (>90 bpm): "; Text.string_of_Z (high_heart_rate abnormal); " readings"; "
";  "- High Systolic Blood Pressure (>130 mmHg): "; Text.string_of_Z (high_blood_pressure abnormal); " readings"; "
";  "- High Glucose Level (>110 mg/dL): "; Text.string_of_Z (high_glucose abnormal); " readings"; "
";  "
";  " " ]%string.

Definition save_report (report filename : string) : M unit :=
  write_text filename report.

Definition main : M unit :=
  do data <- load_data "health_data.csv";
  do stats <- calculate_statistics data;
  do abnormal <- find_abnormal_readings data;
  do total_readings <- len data;
  let report := generate_report stats abnormal total_readings in
  do_ save_report report "output/analysis_report.txt";
  print "analysis report successfully saved to 'output/analysis_report.txt'".

End Script.

(** What the three means print as when they are not numbers. *)
Definition nan_statistics : StatisticsSummary := mkStats "nan" "nan" "nan".

(** The paths and the message of [main]. *)
Definition input_path : string := "health_data.csv".
Definition output_path : string := "output/analysis_report.txt".
Definition confirmation : string :=
  "analysis report successfully saved to 'output/analysis_report.txt'".

(** ** Reading a report back *)

Fixpoint find_field (label : string) (ls : list string) : option string :=
  match ls with
  | [] => None
  | l :: rest =>
      match Text.strip_prefix label l with
      | Some value => Some value
      | None => find_field label rest
      end
  end.

(** The integer on the first line of the report that starts with
    [- Total readings: ]. *)
Definition total_readings_of (report : string) : option Z :=
  match find_field "- Total readings: " (Text.lines report) with
  | Some value => Text.parse_Z value
  | None => None
  end.

(** The text before the first point, and the text after it. *)
Fixpoint split_at_point (s : string) : option (string * string) :=
  match s with
  | EmptyString => None
  | String c r =>
      if Ascii.eqb c "." then Some (EmptyString, r)
      else match split_at_point r with
           | Some (a, b) => Some (String c a, b)
           | None => None
           end
  end.

(** The value, in tenths, of a decimal with digits, a point and exactly
    one more digit. *)
Definition read_unsigned_tenths (s : string) : option Z :=
  match split_at_point s with
  | Some (whole, String c EmptyString) =>
      match Text.parse_N whole, Text.digit_value c with
      | Some i, Some d => Some (Z.of_N (10 * i + d))
      | _, _ => None
      end
  | _ => None
  end.

Definition read_tenths (s : string) : option Z :=
  match s with
  | String "-" r => option_map Z.opp (read_unsigned_tenths r)
  | _ => read_unsigned_tenths s
  end.

(** ** The specification's side *)

Module Spec.

(** The mean of §4.2: the sum of the column divided by the number of
    rows, as an exact rational. *)
Definition reference_mean (col : list Z) : Q :=
  Qmake (int_sum col) (Pos.of_nat (length col)).

(** [s] is a one-decimal rendering of [mu]: it reads back as a number of
    tenths within half a tenth of [mu], up to the relative error of one
    [float64] rounding. *)
Definition one_decimal_of (s : string) (mu : Q) : Prop :=
  exists t : Z,
    read_tenths s = Some t /\
    (Qabs (Qmake t 10 - mu) <= Qmake 1 20 + Qabs mu * Qmake 1 (2 ^ 53))%Q.

(** The counts of §4.3: the rows whose value is strictly above the
    threshold. *)
Definition count_above (threshold : Z) (col : list Z) : nat :=
  length (filter (fun v => threshold < v) col).

(** [q] is [x] rounded to an integer, ties to the even neighbour. *)
Definition round_half_even (x : Q) (q : Z) : Prop :=
  (Qabs (inject_Z q - x) <= Qmake 1 2)%Q /\
  ((Qabs (inject_Z q - x) == Qmake 1 2)%Q -> Z.even q = true).


(** The template of §6, line by line. *)
Definition template_lines (total hr bp glucose n_hr n_bp n_glucose : string)
  : list string :=
  [ "Health Sensor Data Analysis Report";
    "==================================";
    "";
    "Dataset Summary:";
    "- Total readings: " ++ total;
    "";
    "Average Measurements:";
    "- Heart Rate: " ++ hr ++ " bpm";
    "- Systolic Blood Pressure: " ++ bp ++ " mmHg";
    "- Glucose Level: " ++ glucose ++ " mg/dL";
    "";
    "Abnormal Readings:";
    "- High Heart Rate (>90 bpm): " ++ n_hr ++ " readings";
    "- High Systolic Blood Pressure (>130 mmHg): " ++ n_bp ++ " readings";
    "- High Glucose Level (>110 mg/dL): " ++ n_glucose ++ " readings" ]%string.

(** Each line followed by a line feed. *)
Fixpoint unlines (ls : list string) : string :=
  match ls with
  | [] => EmptyString
  | l :: rest => (l ++ String Text.newline (unlines rest))%string
  end.

(** The report of §6: the template with the values put in, and one
    blank line after it. *)
Definition report (stats : StatisticsSummary) (abnormal : AbnormalityCounts)
    (total_readings : Z) : string :=
  unlines (template_lines (Text.string_of_Z total_readings)
             (avg_heart_rate stats) (avg_systolic_bp stats) (avg_glucose stats)
             (Text.string_of_Z (high_heart_rate abnormal))
             (Text.string_of_Z (high_blood_pressure abnormal))
             (Text.string_of_Z (high_glucose abnormal))
           ++ [EmptyString]).

End Spec.

(** ** Two input files and what NumPy reads from them *)

Module Scenario.

Definition header : string :=
  "patient_id,timestamp,heart_rate,blood_pressure_systolic,blood_pressure_diastolic,temperature,glucose_level,sensor_id".

Definition two_rows_csv : string :=
  (header ++ String Text.newline
   ("P001,2024-01-01T08:00:00,80,120,80,36.5,100,S1" ++ String Text.newline
   ("P002,2024-01-01T09:00:00,100,135,85,37.0,115,S2" ++ String Text.newline "")))%string.

Definition header_only_csv : string := (header ++ String Text.newline "")%string.

(** 36.5 and 37.0 as [f4] values. *)
Definition two_rows : Dataset :=
  [ mkReading "P001" "2024-01-01T08:00:00" 80 120 80
      (S754_finite false 9568256 (-18)) 100 "S1";
    mkReading "P002" "2024-01-01T09:00:00" 100 135 85
      (S754_finite false 9699328 (-18)) 115 "S2" ].

(** The reader on these two files; it stands for [np.genfromtxt] on
    them and nowhere else. *)
Definition reader (text : string) : result Dataset :=
  if String.eqb text two_rows_csv then Ok two_rows
  else if String.eqb text header_only_csv then Ok []
  else Raise (ValueError "Some errors were detected !").

(** A row whose systolic pressure sits on the threshold. *)
Definition row_at_130 : Reading :=
  mkReading "P001" "2024-01-01T08:00:00" 72 130 85
    (S754_finite false 9568256 (-18)) 95 "S1".

Definition world (text : string) : World :=
  mkWorld ∅ {[ "health_data.csv" := text ]} {[ "output" ]} [].

End Scenario.

(** ** Reading the other lines of a report *)

(** [s] without the [suffix] it ends with. *)
Fixpoint strip_suffix (suffix s : string) : option string :=
  if String.eqb s suffix then Some EmptyString
  else match s with
       | EmptyString => None
       | String c r => option_map (String c) (strip_suffix suffix r)
       end.

(** What stands between [label] and [suffix] on the first line of the
    report that starts with [label]. *)
Definition field_of (label suffix report : string) : option string :=
  match find_field label (Text.lines report) with
  | Some rest => strip_suffix suffix rest
  | None => None
  end.

(** The integer before [ readings] on the line of [label]. *)
Definition count_of (label report : string) : option Z :=
  match field_of label " readings" report with
  | Some value => Text.parse_Z value
  | None => None
  end.

(** What the six lines of values read back as. *)
Definition fields_read_back
    (stats : StatisticsSummary) (abnormal : AbnormalityCounts) (report : string)
  : Prop :=
  field_of "- Heart Rate: " " bpm" report = Some (avg_heart_rate stats) /\
  field_of "- Systolic Blood Pressure: " " mmHg" report = Some (avg_systolic_bp stats) /\
  field_of "- Glucose Level: " " mg/dL" report = Some (avg_glucose stats) /\
  count_of "- High Heart Rate (>90 bpm): " report = Some (high_heart_rate abnormal) /\
  count_of "- High Systolic Blood Pressure (>130 mmHg): " report =
    Some (high_blood_pressure abnormal) /\
  count_of "- High Glucose Level (>110 mg/dL): " report = Some (high_glucose abnormal).

(** * Properties *)

(** [lia] is to know what [/] and [mod] mean. *)
Ltac Zify.zify_post_hook ::= Z.to_euclidean_division_equations.

(** ** Text *)

Module TextFacts.
Import Text.

Lemma append_nil_l (b : string) : ("" ++ b)%string = b.
Proof. reflexivity. Qed.

Lemma append_cons (x : ascii) (a b : string) :
  (String x a ++ b)%string = String x (a ++ b).
Proof. reflexivity. Qed.

Ltac unfold_append := rewrite ?append_cons, ?append_nil_l.

Lemma append_assoc (a b c : string) :
  ((a ++ b) ++ c = a ++ (b ++ c))%string.
Proof.
  induction a as [|x a IH]; unfold_append; [reflexivity | now rewrite IH].
Qed.

Lemma append_nil_r (a : string) : (a ++ "")%string = a.
Proof.
  induction a as [|x a IH]; unfold_append; [reflexivity | now rewrite IH].
Qed.

Lemma no_newline_app (a b : string) :
  no_newline (a ++ b) = no_newline a && no_newline b.
Proof.
  induction a as [|x a IH]; unfold_append; simpl; [reflexivity|].
  rewrite IH. now rewrite andb_assoc.
Qed.

Lemma lines_cons_line (s r : string) :
  no_newline s = true ->
  lines (s ++ String newline r) = s :: lines r.
Proof.
  induction s as [|c s IH]; unfold_append; simpl; intros H.
  - reflexivity.
  - apply andb_true_iff in H as [Hc Hs].
    apply negb_true_iff in Hc. rewrite Hc, (IH Hs). reflexivity.
Qed.

Lemma lines_last_line (s : string) :
  no_newline s = true -> lines s = [s].
Proof.
  induction s as [|c s IH]; simpl; intros H.
  - reflexivity.
  - apply andb_true_iff in H as [Hc Hs].
    apply negb_true_iff in Hc. rewrite Hc, (IH Hs). reflexivity.
Qed.

Lemma strip_prefix_app (p s : string) : strip_prefix p (p ++ s) = Some s.
Proof.
  induction p as [|c p IH]; unfold_append; simpl.
  - reflexivity.
  - now rewrite Ascii.eqb_refl.
Qed.

Lemma digit_value_digit_char (d : N) :
  (d < 10)%N -> digit_value (digit_char d) = Some d.
Proof.
  intros H. unfold digit_value, digit_char.
  rewrite N_ascii_embedding by lia.
  replace ((48 <=? 48 + d)%N && (48 + d <=? 57)%N) with true.
  - f_equal. lia.
  - symmetry. apply andb_true_iff. split; apply N.leb_le; lia.
Qed.

Lemma digit_char_not_newline (d : N) :
  (d < 10)%N -> is_newline (digit_char d) = false.
Proof.
  intros H. unfold is_newline.
  destruct (Ascii.eqb_spec (digit_char d) newline) as [E|]; [|reflexivity].
  apply (f_equal digit_value) in E.
  rewrite digit_value_digit_char in E by assumption. discriminate.
Qed.

Lemma digit_char_not_minus (d : N) :
  (d < 10)%N -> digit_char d <> "-"%char.
Proof.
  intros H E. apply (f_equal digit_value) in E.
  rewrite digit_value_digit_char in E by assumption. discriminate.
Qed.

Lemma digit_char_not_point (d : N) :
  (d < 10)%N -> Ascii.eqb (digit_char d) "." = false.
Proof.
  intros H. destruct (Ascii.eqb_spec (digit_char d) ".") as [E|]; [|reflexivity].
  apply (f_equal digit_value) in E.
  rewrite digit_value_digit_char in E by assumption. discriminate.
Qed.

Lemma mod10_lt (n : N) : (n mod 10 < 10)%N.
Proof. apply N.mod_lt. discriminate. Qed.

Lemma digits_of_acc (fuel : nat) :
  forall n acc, digits_of fuel n acc = (digits_of fuel n "" ++ acc)%string.
Proof.
  induction fuel as [|f IH]; intros n acc; simpl.
  - reflexivity.
  - destruct (n / 10 =? 0)%N.
    + reflexivity.
    + rewrite IH. rewrite (IH _ (String _ "")).
      rewrite append_assoc. reflexivity.
Qed.

(** Reading what [digits_of] wrote continues from the value read so
    far, shifted by the digits written. *)
Lemma parse_digits_of (fuel : nat) :
  forall n, (n < 10 ^ N.of_nat fuel)%N -> (0 < fuel)%nat ->
  forall rest a,
    parse_digits (digits_of fuel n "" ++ rest) a =
    parse_digits rest
      (a * 10 ^ N.of_nat (String.length (digits_of fuel n "")) + n)%N.
Proof.
  induction fuel as [|f IH]; intros n Hn Hf rest a; [lia|].
  simpl. destruct (N.eqb_spec (n / 10) 0) as [E|E].
  - simpl. rewrite digit_value_digit_char by apply mod10_lt.
    f_equal. change (10 ^ N.of_nat 1)%N with 10%N.
    pose proof (N.Div0.div_mod n 10) as H.
    rewrite E, N.mul_0_r, N.add_0_l in H. rewrite <- H. lia.
  - assert (Hdiv : (n / 10 < 10 ^ N.of_nat f)%N).
    { apply N.Div0.div_lt_upper_bound.
      replace (N.of_nat (S f)) with (N.succ (N.of_nat f)) in Hn by lia.
      rewrite N.pow_succ_r' in Hn. exact Hn. }
    assert (Hf' : (0 < f)%nat).
    { destruct f; [|lia]. change (10 ^ N.of_nat 0)%N with 1%N in Hdiv. lia. }
    rewrite digits_of_acc, append_assoc. rewrite IH by assumption.
    simpl. rewrite digit_value_digit_char by apply mod10_lt.
    f_equal.
    assert (Hlen : String.length (digits_of f (n / 10) "" ++ String (digit_char (n mod 10)) "")
                   = S (String.length (digits_of f (n / 10) ""))).
    { generalize (digits_of f (n / 10) ""). intros s.
      induction s as [|c s IHs]; simpl; [reflexivity | now rewrite IHs]. }
    rewrite Hlen.
    replace (N.of_nat (S (String.length (digits_of f (n / 10) ""))))
      with (N.succ (N.of_nat (String.length (digits_of f (n / 10) "")))) by lia.
    rewrite N.pow_succ_r'.
    pose proof (N.Div0.div_mod n 10) as H.
    set (hi := (n / 10)%N) in *. set (lo := (n mod 10)%N) in *.
    set (p := (10 ^ _)%N). nia.
Qed.

Lemma fuel_enough (n : N) : (n < 10 ^ N.of_nat (S (N.to_nat (N.log2 n))))%N.
Proof.
  replace (N.of_nat (S (N.to_nat (N.log2 n)))) with (N.succ (N.log2 n)) by lia.
  destruct n as [|p].
  - simpl. lia.
  - pose proof (N.log2_spec (Npos p) ltac:(lia)) as [_ H].
    eapply N.lt_le_trans; [exact H|].
    apply N.pow_le_mono_l. lia.
Qed.

Lemma digits_of_nonempty (fuel : nat) n acc :
  (0 < fuel)%nat -> exists c s, digits_of fuel n acc = String c s /\ is_digit c = true.
Proof.
  revert n acc. induction fuel as [|f IH]; intros n acc Hf; [lia|].
  simpl. destruct (n / 10 =? 0)%N.
  - eexists _, _. split; [reflexivity|].
    unfold is_digit. now rewrite digit_value_digit_char by apply mod10_lt.
  - destruct f as [|f'].
    + simpl. eexists _, _. split; [reflexivity|].
      unfold is_digit. now rewrite digit_value_digit_char by apply mod10_lt.
    + apply IH. lia.
Qed.

Lemma parse_N_string_of_N (n : N) : parse_N (string_of_N n) = Some n.
Proof.
  unfold string_of_N.
  destruct (digits_of_nonempty (S (N.to_nat (N.log2 n))) n "" ltac:(lia))
    as (c & s & E & _).
  unfold parse_N. rewrite E. rewrite <- E.
  rewrite <- (append_nil_r (digits_of _ n "")).
  rewrite parse_digits_of by (try apply fuel_enough; lia).
  simpl. f_equal.
Qed.

Lemma digits_of_all_digits (fuel : nat) :
  forall n acc, all_digits acc = true -> all_digits (digits_of fuel n acc) = true.
Proof.
  induction fuel as [|f IH]; intros n acc H; simpl; [exact H|].
  assert (H' : all_digits (String (digit_char (n mod 10)) acc) = true).
  { simpl. unfold is_digit.
    rewrite digit_value_digit_char by apply mod10_lt. exact H. }
  destruct (n / 10 =? 0)%N; [exact H' | now apply IH].
Qed.

Lemma string_of_N_all_digits (n : N) : all_digits (string_of_N n) = true.
Proof. apply digits_of_all_digits. reflexivity. Qed.

Lemma is_digit_not_newline (c : ascii) : is_digit c = true -> is_newline c = false.
Proof.
  unfold is_digit, is_newline. intros H.
  destruct (Ascii.eqb_spec c newline) as [->|]; [discriminate H | reflexivity].
Qed.

Lemma all_digits_no_newline (s : string) :
  all_digits s = true -> no_newline s = true.
Proof.
  induction s as [|c s IH]; simpl; [reflexivity|].
  intros H. apply andb_true_iff in H as [Hc Hs].
  now rewrite (is_digit_not_newline _ Hc), IH.
Qed.

Lemma string_of_Z_no_newline (z : Z) : no_newline (string_of_Z z) = true.
Proof.
  destruct z as [|p|p]; simpl; [reflexivity| |];
    apply all_digits_no_newline, string_of_N_all_digits.
Qed.

Lemma parse_Z_string_of_Z (z : Z) : parse_Z (string_of_Z z) = Some z.
Proof.
  destruct z as [|p|p].
  - reflexivity.
  - simpl string_of_Z.
    pose proof (parse_N_string_of_N (Npos p)) as HP.
    unfold string_of_N in *.
    destruct (digits_of_nonempty (S (N.to_nat (N.log2 (Npos p)))) (Npos p) ""
                ltac:(lia)) as (c & s & E & Hc).
    rewrite E in *. unfold parse_Z.
    assert (Hm : c <> "-"%char) by (intros ->; discriminate Hc).
    destruct c as [[] [] [] [] [] [] [] []]; try (rewrite HP; reflexivity).
    congruence.
  - simpl string_of_Z. unfold parse_Z.
    rewrite parse_N_string_of_N. reflexivity.
Qed.

End TextFacts.

(** ** The report *)

Module ReportFacts.
Import Text TextFacts.

Ltac normalize_text :=
  cbn [String.concat Spec.unlines app];
  repeat (rewrite ?append_assoc, ?(append_cons newline), ?append_nil_l).

(** What [generate_report] renders is the report of §6 followed by one
    space: the closing quotes of its template sit one column in. *)
Lemma generate_report_text stats abnormal total_readings :
  generate_report stats abnormal total_readings =
  (Spec.report stats abnormal total_readings ++ " ")%string.
Proof.
  unfold generate_report, Spec.report, Spec.template_lines.
  normalize_text. reflexivity.
Qed.

Lemma length_append (a b : string) :
  String.length (a ++ b) = (String.length a + String.length b)%nat.
Proof.
  induction a as [|c a IH]; unfold_append; simpl; [reflexivity | now rewrite IH].
Qed.

Lemma append_space_neq (s : string) : (s ++ " ")%string <> s.
Proof.
  intros E. apply (f_equal String.length) in E.
  rewrite length_append in E. simpl in E. lia.
Qed.

Lemma unlines_app (a b : list string) :
  Spec.unlines (a ++ b) = (Spec.unlines a ++ Spec.unlines b)%string.
Proof.
  induction a as [|l a IH]; cbn [Spec.unlines app].
  - reflexivity.
  - rewrite IH, append_assoc, append_cons. reflexivity.
Qed.

(** Lines without a line feed in them come back as they were written,
    whatever follows. *)
Lemma lines_unlines_prefix (pre : list string) (rest : string) :
  Forall (fun l => no_newline l = true) pre ->
  lines (Spec.unlines pre ++ rest) = pre ++ lines rest.
Proof.
  induction 1 as [|l pre Hl _ IH]; cbn [Spec.unlines app].
  - reflexivity.
  - rewrite append_assoc, append_cons, lines_cons_line by exact Hl.
    now rewrite IH.
Qed.

Lemma find_field_here (label value : string) (ls : list string) :
  find_field label ((label ++ value)%string :: ls) = Some value.
Proof. cbn [find_field]. now rewrite strip_prefix_app. Qed.

Lemma find_field_skip (label l : string) (ls : list string) :
  strip_prefix label l = None -> find_field label (l :: ls) = find_field label ls.
Proof. intros H. cbn [find_field]. now rewrite H. Qed.

Lemma total_readings_of_generate_report stats abnormal (n : Z) :
  total_readings_of (generate_report stats abnormal n) = Some n.
Proof.
  rewrite generate_report_text. unfold Spec.report, total_readings_of.
  set (t := string_of_Z n).
  match goal with
  | |- context [Spec.template_lines ?a ?b ?c ?d ?e ?f ?g ++ ?z] =>
      change (Spec.template_lines a b c d e f g ++ z)
        with ([ "Health Sensor Data Analysis Report"%string;
                "=================================="%string;
                ""%string;
                "Dataset Summary:"%string;
                ("- Total readings: " ++ t)%string ]
              ++ skipn 5 (Spec.template_lines a b c d e f g ++ z))
  end.
  rewrite unlines_app, append_assoc, lines_unlines_prefix.
  - cbn [app]. rewrite !find_field_skip by reflexivity.
    rewrite find_field_here. apply parse_Z_string_of_Z.
  - repeat constructor.
    rewrite no_newline_app. subst t. now rewrite string_of_Z_no_newline.
Qed.

End ReportFacts.

(** ** Counting above a threshold *)

Module CountFacts.

Lemma np_sum_bool_app (a b : list bool) :
  np_sum_bool (a ++ b) = np_sum_bool a + np_sum_bool b.
Proof.
  induction a as [|x a IH]; cbn [np_sum_bool fold_right app].
  - reflexivity.
  - fold (np_sum_bool (a ++ b)). fold (np_sum_bool a). lia.
Qed.

(** The sum of the mask is the number of values strictly above the
    threshold. *)
Lemma np_sum_bool_greater (col : list Z) (threshold : Z) :
  np_sum_bool (np_greater col threshold) =
  Z.of_nat (Spec.count_above threshold col).
Proof.
  unfold Spec.count_above, np_greater.
  induction col as [|v col IH]; [reflexivity|].
  cbn [map np_sum_bool fold_right]. fold (np_sum_bool (map (fun v => threshold <? v) col)).
  rewrite IH, filter_cons.
  destruct (Z.ltb_spec threshold v) as [H|H]; destruct (decide (threshold < v));
    try lia; cbn [Z.b2z length]; lia.
Qed.

Lemma count_above_app (threshold : Z) (a b : list Z) :
  Spec.count_above threshold (a ++ b) =
  (Spec.count_above threshold a + Spec.count_above threshold b)%nat.
Proof. unfold Spec.count_above. now rewrite filter_app, length_app. Qed.

(** A value at or below the threshold does not count. *)
Lemma count_above_skip (threshold v : Z) (a b : list Z) :
  v <= threshold ->
  Spec.count_above threshold (a ++ v :: b) = Spec.count_above threshold (a ++ b).
Proof.
  intros H. rewrite !count_above_app. f_equal.
  unfold Spec.count_above. rewrite filter_cons.
  destruct (decide (threshold < v)); [lia | reflexivity].
Qed.

Lemma count_above_bound (threshold : Z) (col : list Z) :
  (Spec.count_above threshold col <= length col)%nat.
Proof. unfold Spec.count_above. apply length_filter. Qed.

End CountFacts.

(** ** Effects *)

Module WorldFacts.


Lemma squeeze_1d (rows : Dataset) :
  length rows <> 1%nat -> squeeze rows = Array1d rows.
Proof. destruct rows as [|r [|r' rows]]; cbn; [reflexivity | lia | reflexivity]. Qed.

Lemma read_array_run (data : nat) (w : World) (arr : ndarray) :
  arrays w !! data = Some arr -> read_array data w = (Ok arr, w).
Proof. intros H. unfold read_array. now rewrite H. Qed.

Lemma read_array_frame (data : nat) (w : World) : snd (read_array data w) = w.
Proof. unfold read_array. now destruct (arrays w !! data). Qed.

Lemma calculate_statistics_run (data : nat) (w : World) (arr : ndarray) :
  arrays w !! data = Some arr ->
  calculate_statistics data w =
  (Ok {| avg_heart_rate := Float64.format_1f (np_mean (column heart_rate arr));
         avg_systolic_bp := Float64.format_1f (np_mean (column blood_pressure_systolic arr));
         avg_glucose := Float64.format_1f (np_mean (column glucose_level arr)) |}, w).
Proof.
  intros H. unfold calculate_statistics, bind. now rewrite (read_array_run _ _ _ H).
Qed.

Lemma find_abnormal_readings_run (data : nat) (w : World) (arr : ndarray) :
  arrays w !! data = Some arr ->
  find_abnormal_readings data w =
  (Ok {| high_heart_rate := np_sum_bool (np_greater (column heart_rate arr) 90);
         high_blood_pressure := np_sum_bool (np_greater (column blood_pressure_systolic arr) 130);
         high_glucose := np_sum_bool (np_greater (column glucose_level arr) 110) |}, w).
Proof.
  intros H. unfold find_abnormal_readings, bind. now rewrite (read_array_run _ _ _ H).
Qed.

Lemma len_run (data : nat) (w : World) (rows : Dataset) :
  arrays w !! data = Some (Array1d rows) ->
  len data w = (Ok (Z.of_nat (length rows)), w).
Proof. intros H. unfold len, bind. now rewrite (read_array_run _ _ _ H). Qed.

Lemma len_unsized (data : nat) (w : World) (row : Reading) :
  arrays w !! data = Some (Array0d row) ->
  len data w = (Raise (TypeError "len() of unsized object"), w).
Proof. intros H. unfold len, bind. now rewrite (read_array_run _ _ _ H). Qed.




Section Main.
Variable parse_csv : string -> result Dataset.

Lemma load_data_run (w : World) (filename text : string) (rows : Dataset) :
  files w !! filename = Some text ->
  parse_csv text = Ok rows ->
  load_data parse_csv filename w =
  (Ok (fresh (dom (arrays w))),
   mkWorld (<[fresh (dom (arrays w)) := squeeze rows]> (arrays w))
     (files w) (dirs w) (stdout w)).
Proof.
  intros Hf Hp. unfold load_data, genfromtxt, bind, read_text.
  rewrite Hf, Hp. reflexivity.
Qed.

(** A load that fails leaves the world as it was. *)
Lemma load_data_failure (w w' : World) (filename : string) (e : exn) :
  load_data parse_csv filename w = (Raise e, w') -> w' = w.
Proof.
  unfold load_data, genfromtxt, bind, read_text.
  destruct (files w !! filename) as [text|]; [|now intros [= _ <-]].
  destruct (parse_csv text) as [rows|e']; cbn; [discriminate | now intros [= _ <-]].
Qed.

(** The whole of [main], when the input file is there and parses to
    no row or to several. *)
Lemma main_run (w : World) (text : string) (rows : Dataset) :
  files w !! input_path = Some text ->
  parse_csv text = Ok rows ->
  length rows <> 1%nat ->
  let data := fresh (dom (arrays w)) in
  let w1 := mkWorld (<[data := Array1d rows]> (arrays w)) (files w) (dirs w) (stdout w) in
  exists stats abnormal,
    calculate_statistics data w1 = (Ok stats, w1) /\
    find_abnormal_readings data w1 = (Ok abnormal, w1) /\
    main parse_csv w =
    if bool_decide ("output" ∈ dirs w)
    then (Ok tt,
          mkWorld (arrays w1)
            (<[output_path := generate_report stats abnormal (Z.of_nat (length rows))]> (files w))
            (dirs w) (stdout w ++ [confirmation]))
    else (Raise (FileNotFoundError output_path), w1).
Proof.
  intros Hf Hp Hlen data w1. unfold input_path in Hf.
  assert (Hd : arrays w1 !! data = Some (Array1d rows)) by apply lookup_insert_eq.
  eexists _, _. split; [apply (calculate_statistics_run _ _ _ Hd)|].
  split; [apply (find_abnormal_readings_run _ _ _ Hd)|].
  unfold main. unfold bind at 1.
  rewrite (load_data_run _ _ _ _ Hf Hp), (squeeze_1d _ Hlen). fold data. fold w1.
  unfold bind at 1. rewrite (calculate_statistics_run _ _ _ Hd).
  unfold bind at 1. rewrite (find_abnormal_readings_run _ _ _ Hd).
  unfold bind at 1. rewrite (len_run _ _ _ Hd).
  unfold bind, save_report, write_text, print, dir_exists.
  change (dirname "output/analysis_report.txt") with "output"%string.
  change (String.eqb "output" "") with false. cbn [orb].
  change (dirs w1) with (dirs w).
  destruct (bool_decide ("output" ∈ dirs w)); reflexivity.
Qed.

(** With exactly one data row the array has no dimension, and [main]
    stops at [len(data)] before anything is written. *)
Lemma main_one_row (w : World) (text : string) (row : Reading) :
  files w !! input_path = Some text ->
  parse_csv text = Ok [row] ->
  main parse_csv w =
  (Raise (TypeError "len() of unsized object"),
   mkWorld (<[fresh (dom (arrays w)) := Array0d row]> (arrays w))
     (files w) (dirs w) (stdout w)).
Proof.
  intros Hf Hp. unfold input_path in Hf.
  set (data := fresh (dom (arrays w))).
  set (w1 := mkWorld (<[data := Array0d row]> (arrays w)) (files w) (dirs w) (stdout w)).
  assert (Hd : arrays w1 !! data = Some (Array0d row)) by apply lookup_insert_eq.
  unfold main. unfold bind at 1.
  rewrite (load_data_run _ _ _ _ Hf Hp). cbn [squeeze]. fold data. fold w1.
  unfold bind at 1. rewrite (calculate_statistics_run _ _ _ Hd).
  unfold bind at 1. rewrite (find_abnormal_readings_run _ _ _ Hd).
  unfold bind at 1. rewrite (len_unsized _ _ _ Hd). reflexivity.
Qed.

(** When [main] comes back without an exception, the input file was
    there and parsed, not to a single row, and the output directory
    existed. *)
Lemma main_ok_inv (w w' : World) :
  main parse_csv w = (Ok tt, w') ->
  exists text rows,
    files w !! input_path = Some text /\ parse_csv text = Ok rows /\
    length rows <> 1%nat /\ "output" ∈ dirs w.
Proof.
  intros H.
  destruct (files w !! input_path) as [text|] eqn:Hf.
  - destruct (parse_csv text) as [rows|e] eqn:Hp.
    + destruct (Nat.eq_dec (length rows) 1%nat) as [E|NE].
      { destruct rows as [|row [|row' rows]]; try discriminate E.
        rewrite (main_one_row w text row Hf Hp) in H. discriminate. }
      destruct (main_run w text rows Hf Hp NE) as (s & a & _ & _ & Hm).
      rewrite Hm in H.
      destruct (bool_decide_reflect ("output" ∈ dirs w)); [|discriminate].
      eauto 10.
    + exfalso. revert H. unfold input_path in Hf.
      unfold main, load_data, genfromtxt, bind, read_text.
      rewrite Hf, Hp. discriminate.
  - exfalso. revert H. unfold input_path in Hf.
    unfold main, load_data, genfromtxt, bind, read_text.
    rewrite Hf. discriminate.
Qed.

End Main.

End WorldFacts.

(** ** Formatting to one decimal *)

Module FormatFacts.
Import Text TextFacts Float64.

Lemma split_at_point_digits (a b : string) :
  all_digits a = true ->
  split_at_point (a ++ String "." b) = Some (a, b).
Proof.
  induction a as [|c a IH]; unfold_append; cbn [split_at_point all_digits].
  - reflexivity.
  - intros H. apply andb_true_iff in H as [Hc Ha].
    rewrite (IH Ha).
    destruct (Ascii.eqb_spec c ".") as [->|]; [discriminate Hc | reflexivity].
Qed.

Lemma read_unsigned_format (t : Z) :
  0 <= t ->
  read_unsigned_tenths
    (string_of_N (Z.to_N (t / 10)) ++ "." ++
     String (digit_char (Z.to_N (t mod 10))) "") = Some t.
Proof.
  intros Ht. unfold read_unsigned_tenths.
  change ("." ++ ?x)%string with (String "." x).
  rewrite split_at_point_digits by apply string_of_N_all_digits.
  rewrite parse_N_string_of_N, digit_value_digit_char by lia.
  f_equal. lia.
Qed.

Lemma read_tenths_format (s : bool) (t : Z) :
  0 <= t ->
  read_tenths (format_tenths s t) = Some (if s then - t else t).
Proof.
  intros Ht. unfold format_tenths. destruct s.
  - change ("-" ++ ?x)%string with (String "-" x).
    cbn [read_tenths]. now rewrite read_unsigned_format.
  - rewrite append_nil_l.
    pose proof (read_unsigned_format t Ht) as HR.
    unfold string_of_N in *.
    destruct (digits_of_nonempty (S (N.to_nat (N.log2 (Z.to_N (t / 10)))))
                (Z.to_N (t / 10)) "" ltac:(lia)) as (c & r & E & Hc).
    rewrite E in *. rewrite append_cons in *.
    unfold read_tenths.
    assert (Hm : c <> "-"%char) by (intros ->; discriminate Hc).
    destruct c as [[] [] [] [] [] [] [] []]; try exact HR.
    congruence.
Qed.

(** In integers: [round_half_even_div n d] is within half of [n / d],
    and even when it is exactly half away. *)
Lemma round_half_even_div_spec (n d : Z) :
  0 < d ->
  let q := round_half_even_div n d in
  2 * Z.abs (q * d - n) <= d /\
  (2 * Z.abs (q * d - n) = d -> Z.even q = true).
Proof.
  intros Hd q. subst q. unfold round_half_even_div.
  pose proof (Z.div_mod n d ltac:(lia)) as E.
  pose proof (Z.mod_pos_bound n d Hd) as B.
  set (q := n / d) in *. set (r := n mod d) in *.
  destruct (Z.compare_spec (2 * r) d) as [H|H|H].
  - destruct (Z.even q) eqn:Ev.
    + split; [nia | intros _; exact Ev].
    + split; [nia|]. intros _.
      rewrite Z.even_add, Ev. reflexivity.
  - split; [nia | intros; nia].
  - split; [nia | intros; nia].
Qed.

Lemma round_half_even_div_nonneg (n d : Z) :
  0 <= n -> 0 < d -> 0 <= round_half_even_div n d.
Proof.
  intros Hn Hd. unfold round_half_even_div.
  pose proof (Z.div_pos n d Hn Hd).
  destruct (2 * (n mod d) ?= d); [destruct (Z.even _)| |]; lia.
Qed.

Lemma tenths_nonneg (m : positive) (e : Z) : 0 <= tenths m e.
Proof.
  unfold tenths. destruct (0 <=? e) eqn:He.
  - apply Z.leb_le in He. pose proof (Z.pow_nonneg 2 e). nia.
  - apply round_half_even_div_nonneg; [lia|]. apply Z.pow_pos_nonneg; lia.
Qed.

(** Bringing a statement on rationals [n # d] down to integers. *)
Lemma round_half_even_Qmake (n : Z) (d : positive) (q : Z) :
  2 * Z.abs (q * Zpos d - n) <= Zpos d ->
  (2 * Z.abs (q * Zpos d - n) = Zpos d -> Z.even q = true) ->
  Spec.round_half_even (Qmake n d) q.
Proof.
  intros H1 H2. unfold Spec.round_half_even.
  assert (E : (Qabs (inject_Z q - Qmake n d) == Qmake (Z.abs (q * Zpos d - n)) d)%Q).
  { unfold Qabs, Qminus, Qplus, Qopp, inject_Z, Qeq. cbn [Qnum Qden].
    rewrite Pos.mul_1_l. f_equal. f_equal. lia. }
  rewrite E. split.
  - unfold Qle. cbn [Qnum Qden]. lia.
  - intros T. apply H2. unfold Qeq in T. cbn [Qnum Qden] in T. lia.
Qed.

Lemma ten_times_Qmake (n : Z) (d : positive) :
  (10 * Qmake n d)%Q = Qmake (10 * n) d.
Proof. reflexivity. Qed.

(** The tenths printed for a finite float are its value times ten,
    rounded to the nearest integer with ties to even. *)
Lemma tenths_round_half_even (m : positive) (e : Z) :
  Spec.round_half_even (10 * to_Q (S754_finite false m e)) (tenths m e).
Proof.
  unfold to_Q, tenths. destruct (0 <=? e) eqn:He.
  - unfold inject_Z. rewrite ten_times_Qmake.
    apply round_half_even_Qmake; intros; lia.
  - apply Z.leb_gt in He. rewrite ten_times_Qmake.
    assert (Hp : 0 < 2 ^ (- e)) by (apply Z.pow_pos_nonneg; lia).
    pose proof (round_half_even_div_spec (10 * Zpos m) (2 ^ (- e)) Hp) as [H1 H2].
    apply round_half_even_Qmake; rewrite Z2Pos.id by exact Hp; assumption.
Qed.

End FormatFacts.


(** ** Arithmetic in [float64] *)

Module FloatFacts.
Import Float64.

Lemma digits2_pos_bounds (p : positive) :
  2 ^ (Zpos (digits2_pos p) - 1) <= Zpos p < 2 ^ Zpos (digits2_pos p).
Proof.
  induction p as [p IH|p IH|]; cbn [digits2_pos].
  - rewrite Pos2Z.inj_succ, Z.pow_succ_r by lia.
    replace (Z.succ (Zpos (digits2_pos p)) - 1)
      with (Z.succ (Zpos (digits2_pos p) - 1)) by lia.
    rewrite Z.pow_succ_r by lia. lia.
  - rewrite Pos2Z.inj_succ, Z.pow_succ_r by lia.
    replace (Z.succ (Zpos (digits2_pos p)) - 1)
      with (Z.succ (Zpos (digits2_pos p) - 1)) by lia.
    rewrite Z.pow_succ_r by lia. lia.
  - cbn. lia.
Qed.

Lemma digits2_pos_unique (p : positive) (k : Z) :
  2 ^ (k - 1) <= Zpos p < 2 ^ k -> Zpos (digits2_pos p) = k.
Proof.
  intros [Hlo Hhi]. pose proof (digits2_pos_bounds p) as [Blo Bhi].
  set (d := Zpos (digits2_pos p)) in *.
  assert (0 < d) by (subst d; lia).
  assert (Hk : 0 < k).
  { destruct (Z.ltb_spec 0 k); [assumption|].
    destruct (Z.eq_dec k 0) as [->|].
    - cbn in Hhi. lia.
    - rewrite Z.pow_neg_r in Hhi by lia. lia. }
  destruct (Z.lt_trichotomy d k) as [L|[E|G]]; [|exact E|].
  - assert (2 ^ d <= 2 ^ (k - 1)) by (apply Z.pow_le_mono_r; lia). lia.
  - assert (2 ^ k <= 2 ^ (d - 1)) by (apply Z.pow_le_mono_r; lia). lia.
Qed.

Lemma iter_xO_value (m k : positive) :
  Zpos (Pos.iter xO m k) = Zpos m * 2 ^ Zpos k.
Proof.
  induction k as [|k IH] using Pos.peano_ind.
  - cbn. lia.
  - rewrite Pos.iter_succ, Pos2Z.inj_succ, Z.pow_succ_r by lia.
    rewrite Pos2Z.inj_xO, IH. lia.
Qed.

Lemma fexp_normal (k : Z) :
  -1021 <= k -> fexp prec emax k = k - 53.
Proof. intros H. unfold fexp, emin, prec, emax. lia. Qed.

Lemma loc_of_record_of_loc (m : Z) (l : location) :
  loc_of_shr_record (shr_record_of_loc m l) = l.
Proof. destruct l as [|[]]; reflexivity. Qed.

Lemma shr_m_record_of_loc (m : Z) (l : location) :
  shr_m (shr_record_of_loc m l) = m.
Proof. destruct l as [|[]]; reflexivity. Qed.

Lemma shr_fexp_53 (m : positive) (e : Z) (l : location) :
  Zpos (digits2_pos m) = 53 -> -1074 <= e ->
  shr_fexp prec emax (Zpos m) e l = (shr_record_of_loc (Zpos m) l, e).
Proof.
  intros Hd He. unfold shr_fexp. cbn [Zdigits2]. rewrite Hd.
  rewrite fexp_normal by lia.
  replace (53 + e - 53 - e) with 0 by lia. reflexivity.
Qed.

Lemma shr_fexp_54 (m : positive) (e : Z) (l : location) :
  Zpos (digits2_pos m) = 54 -> -1074 <= e ->
  shr_fexp prec emax (Zpos m) e l =
  (shr_1 (shr_record_of_loc (Zpos m) l), e + 1).
Proof.
  intros Hd He. unfold shr_fexp. cbn [Zdigits2]. rewrite Hd.
  rewrite fexp_normal by lia.
  replace (54 + e - 53 - e) with 1 by lia. reflexivity.
Qed.

(** Rounding a mantissa of 53 bits: it stays, or goes one up, and is
    renormalised when that makes [2 ^ 53]. *)
Lemma binary_round_aux_53 (sx : bool) (m : positive) (e : Z) (l : location) :
  Zpos (digits2_pos m) = 53 -> -1074 <= e <= 970 ->
  exists (mf : positive) (k : Z),
    binary_round_aux prec emax sx (Zpos m) e l = S754_finite sx mf (e + k) /\
    0 <= k <= 1 /\
    Zpos mf * 2 ^ k = round_nearest_even (Zpos m) l /\
    Zpos (digits2_pos mf) = 53.
Proof.
  intros Hd He. unfold binary_round_aux.
  rewrite shr_fexp_53 by (assumption || lia).
  rewrite loc_of_record_of_loc, shr_m_record_of_loc.
  pose proof (digits2_pos_bounds m) as B. rewrite Hd in B.
  change (2 ^ (53 - 1)) with 4503599627370496 in B.
  change (2 ^ 53) with 9007199254740992 in B.
  set (m1 := round_nearest_even (Zpos m) l).
  assert (Hm1 : m1 = Zpos m \/ m1 = Zpos m + 1).
  { subst m1. destruct l as [|[]]; cbn [round_nearest_even]; auto.
    destruct (Z.even (Zpos m)); auto. }
  destruct (Z.eq_dec m1 9007199254740992) as [E|NE].
  - rewrite E.
    rewrite (shr_fexp_54 4503599627370496~0 e loc_Exact) by (reflexivity || lia).
    cbn [shr_record_of_loc shr_1 shr_m orb].
    replace (e + 1 <=? emax - prec) with true
      by (symmetry; apply Z.leb_le; unfold emax, prec; lia).
    exists 4503599627370496%positive, 1. repeat split; first [lia | reflexivity].
  - assert (Hpos : 0 < m1) by lia.
    destruct m1 as [|p|p] eqn:Ep; try lia.
    assert (Hdp : Zpos (digits2_pos p) = 53).
    { apply digits2_pos_unique.
      change (2 ^ (53 - 1)) with 4503599627370496.
      change (2 ^ 53) with 9007199254740992. lia. }
    rewrite shr_fexp_53 by (assumption || lia).
    cbn [shr_record_of_loc shr_m].
    replace (e <=? emax - prec) with true
      by (symmetry; apply Z.leb_le; unfold emax, prec; lia).
    exists p, 0. rewrite Z.add_0_r. repeat split; first [lia | assumption].
Qed.

(** Rounding a mantissa of 54 bits: the last bit goes into the
    location and the rest is rounded as above. *)
Lemma binary_round_aux_54 (sx : bool) (m : positive) (e : Z) (l : location) :
  Zpos (digits2_pos m) = 54 -> -1074 <= e <= 969 ->
  exists (mf : positive) (k : Z),
    binary_round_aux prec emax sx (Zpos m) e l = S754_finite sx mf (e + 1 + k) /\
    0 <= k <= 1 /\
    Zpos mf * 2 ^ k =
      round_nearest_even (Zpos m / 2)
        (loc_of_shr_record (shr_1 (shr_record_of_loc (Zpos m) l))) /\
    Zpos (digits2_pos mf) = 53.
Proof.
  intros Hd He.
  pose proof (digits2_pos_bounds m) as B. rewrite Hd in B.
  change (2 ^ (54 - 1)) with 9007199254740992 in B.
  change (2 ^ 54) with 18014398509481984 in B.
  set (rec := shr_1 (shr_record_of_loc (Zpos m) l)).
  assert (Hrec : exists p, shr_m rec = Zpos p /\ Zpos p = Zpos m / 2).
  { subst rec. destruct m as [p|p|]; [exists p|exists p|lia];
      (split; [destruct l as [|[]]; reflexivity|]).
    - rewrite Pos2Z.inj_xI. lia.
    - rewrite Pos2Z.inj_xO. lia. }
  destruct Hrec as (p & Hp & Hhalf).
  assert (Hdp : Zpos (digits2_pos p) = 53).
  { apply digits2_pos_unique.
    change (2 ^ (53 - 1)) with 4503599627370496.
    change (2 ^ 53) with 9007199254740992. lia. }
  assert (Hsame : binary_round_aux prec emax sx (Zpos m) e l =
                  binary_round_aux prec emax sx (Zpos p) (e + 1) (loc_of_shr_record rec)).
  { unfold binary_round_aux.
    rewrite shr_fexp_54 by (assumption || lia). fold rec.
    rewrite (shr_fexp_53 p) by (assumption || lia).
    rewrite loc_of_record_of_loc, shr_m_record_of_loc, Hp. reflexivity. }
  rewrite Hsame, <- Hhalf.
  apply binary_round_aux_53; [assumption | lia].
Qed.

(** The location that [SFdiv] computes from the remainder says on which
    side of the half the quotient falls. *)
Lemma new_location_spec (d r : Z) :
  0 < d -> 0 <= r < d ->
  new_location d r =
  if r =? 0 then loc_Exact else loc_Inexact (2 * r ?= d).
Proof.
  intros Hd Hr. unfold new_location, new_location_even, new_location_odd.
  destruct (Z.even d) eqn:Ev; [reflexivity|].
  destruct (r =? 0); [reflexivity|]. f_equal.
  assert (Hodd : Z.odd d = true) by (rewrite <- Z.negb_even, Ev; reflexivity).
  apply Z.odd_spec in Hodd as [c Hc].
  destruct (Z.compare_spec (2 * r + 1) d), (Z.compare_spec (2 * r) d);
    try reflexivity; lia.
Qed.

(** The rounded quotient is within half of the exact one. *)
Lemma round_quotient_53 (q d r : Z) :
  0 < d -> 0 <= r < d ->
  2 * Z.abs (round_nearest_even q (new_location d r) * d - (q * d + r)) <= d.
Proof.
  intros Hd Hr. rewrite new_location_spec by assumption.
  destruct (Z.eqb_spec r 0) as [->|Hr0]; cbn [round_nearest_even]; [lia|].
  destruct (Z.compare_spec (2 * r) d); [destruct (Z.even q)| |]; nia.
Qed.

(** The same when one more bit of the quotient is dropped first. *)
Lemma round_quotient_54 (q d r : Z) :
  0 < q -> 0 < d -> 0 <= r < d ->
  Z.abs (2 * round_nearest_even (q / 2)
           (loc_of_shr_record (shr_1 (shr_record_of_loc q (new_location d r)))) * d
         - (q * d + r)) <= d.
Proof.
  intros Hq Hd Hr. rewrite new_location_spec by assumption.
  destruct q as [|p|p]; try lia.
  assert (Hhalf : exists h b, Zpos p = 2 * h + Z.b2z b /\ Zpos p / 2 = h /\
            forall l, shr_1 (shr_record_of_loc (Zpos p) l) =
                      Build_shr_record h b (match l with loc_Exact => false | _ => true end)).
  { destruct p as [p|p|].
    - exists (Zpos p), true. rewrite Pos2Z.inj_xI. cbn [Z.b2z].
      split; [lia|]. split; [lia|]. intros [|[]]; reflexivity.
    - exists (Zpos p), false. rewrite Pos2Z.inj_xO. cbn [Z.b2z].
      split; [lia|]. split; [lia|]. intros [|[]]; reflexivity.
    - exists 0, true. split; [reflexivity|]. split; [reflexivity|]. intros [|[]]; reflexivity. }
  destruct Hhalf as (h & b & Hq2 & Hdiv & Hshr).
  rewrite Hshr, Hdiv, Hq2. clear Hshr Hdiv Hq2 Hq.
  destruct (Z.eqb_spec r 0) as [->|Hr0]; destruct b;
    cbn [loc_of_shr_record round_nearest_even Z.b2z];
    try destruct (Z.even h);
    try (destruct (Z.compare_spec (2 * r) d));
    lia.
Qed.

(** An integer of at most 53 bits converts exactly: the mantissa is the
    integer shifted up to 53 bits. *)
Lemma of_Z_normal (z : Z) :
  z <> 0 -> Z.abs z < 2 ^ 53 ->
  exists (m : positive) (a : Z),
    of_Z z = S754_finite (z <? 0) m (- a) /\
    0 <= a <= 52 /\
    Zpos m = Z.abs z * 2 ^ a /\
    Zpos (digits2_pos m) = 53.
Proof.
  intros Hz Hlt.
  assert (Hgen : forall (sx : bool) (p : positive),
            Zpos p < 2 ^ 53 ->
            exists (m : positive) (a : Z),
              binary_round prec emax sx p 0 = S754_finite sx m (- a) /\
              0 <= a <= 52 /\ Zpos m = Zpos p * 2 ^ a /\
              Zpos (digits2_pos m) = 53).
  { intros sx p Hp. unfold binary_round.
    pose proof (digits2_pos_bounds p) as B.
    set (d := Zpos (digits2_pos p)) in *.
    assert (Hd : 1 <= d <= 53).
    { split; [subst d; lia|].
      destruct (Z.le_gt_cases d 53); [assumption|].
      assert (2 ^ 53 <= 2 ^ (d - 1)) by (apply Z.pow_le_mono_r; lia). lia. }
    rewrite fexp_normal by lia. unfold shl_align.
    destruct (Z.eq_dec d 53) as [E|NE].
    - replace (d + 0 - 53 - 0) with 0 by lia.
      destruct (binary_round_aux_53 sx p 0 loc_Exact) as (mf & k & Hr & Hk & Hv & Hdf);
        [fold d; lia | lia |].
      cbn [round_nearest_even] in Hv.
      pose proof (digits2_pos_bounds mf) as Bf. rewrite Hdf in Bf.
      rewrite E in B.
      assert (k = 0) by (destruct (Z.eq_dec k 0); [assumption|];
                         replace k with 1 in * by lia; lia).
      subst k. exists mf, 0. rewrite Hr. repeat split; first [lia | assumption].
    - replace (d + 0 - 53 - 0) with (Zneg (Z.to_pos (53 - d))) by lia.
      set (mz := Pos.iter xO p (Z.to_pos (53 - d))).
      assert (Hmz : Zpos mz = Zpos p * 2 ^ (53 - d)).
      { subst mz. rewrite iter_xO_value, Z2Pos.id by lia. reflexivity. }
      assert (Hpow : 2 ^ (d - 1) * 2 ^ (53 - d) = 2 ^ 52 /\ 2 ^ d * 2 ^ (53 - d) = 2 ^ 53).
      { rewrite <- !Z.pow_add_r by lia. split; f_equal; lia. }
      assert (Hpp : 0 < 2 ^ (53 - d)) by (apply Z.pow_pos_nonneg; lia).
      assert (Hdz : Zpos (digits2_pos mz) = 53).
      { apply digits2_pos_unique. change (53 - 1) with 52. nia. }
      destruct (binary_round_aux_53 sx mz (d + 0 - 53) loc_Exact)
        as (mf & k & Hr & Hk & Hv & Hdf); [assumption | lia |].
      cbn [round_nearest_even] in Hv.
      pose proof (digits2_pos_bounds mf) as Bf. rewrite Hdf in Bf.
      pose proof (digits2_pos_bounds mz) as Bz. rewrite Hdz in Bz.
      assert (k = 0) by (destruct (Z.eq_dec k 0); [assumption|];
                         replace k with 1 in * by lia; lia).
      subst k. exists mf, (53 - d). rewrite Hr.
      split; [f_equal; lia|]. repeat split; first [lia | assumption]. }
  unfold of_Z, binary_normalize. destruct z as [|p|p]; [lia| |].
  - apply (Hgen false p). exact Hlt.
  - apply (Hgen true p). exact Hlt.
Qed.

(** The quotient of two floats with full mantissas is finite, and in
    units of [2 ^ (ex - ey - 53)] it is within a part in [2 ^ 53] of the
    exact quotient. *)
Lemma div_normal (sx sy : bool) (mx my : positive) (ex ey : Z) :
  Zpos (digits2_pos mx) = 53 -> Zpos (digits2_pos my) = 53 ->
  -52 <= ex <= 0 -> -52 <= ey <= 0 ->
  exists (mf : positive) (k : Z),
    div (S754_finite sx mx ex) (S754_finite sy my ey) =
      S754_finite (xorb sx sy) mf (ex - ey - 53 + k) /\
    0 <= k <= 2 /\
    Z.abs (Zpos mf * 2 ^ k * Zpos my - Zpos mx * 2 ^ 53) <= Zpos mx.
Proof.
  intros Hdx Hdy Hex Hey.
  pose proof (digits2_pos_bounds mx) as Bx. rewrite Hdx in Bx.
  pose proof (digits2_pos_bounds my) as By. rewrite Hdy in By.
  change (2 ^ (53 - 1)) with 4503599627370496 in *.
  change (2 ^ 53) with 9007199254740992 in *.
  unfold div, SFdiv, SFdiv_core_binary. cbv zeta. cbn [Zdigits2].
  rewrite Hdx, Hdy. rewrite fexp_normal by lia.
  replace (Z.min (53 + ex - (53 + ey) - 53) (ex - ey)) with (ex - ey - 53) by lia.
  replace (ex - ey - (ex - ey - 53)) with 53 by lia.
  rewrite Z.shiftl_mul_pow2 by lia.
  change (2 ^ 53) with 9007199254740992.
  set (N := Zpos mx * 9007199254740992).
  pose proof (Z_div_mod N (Zpos my) ltac:(lia)) as Hdm.
  destruct (Z.div_eucl N (Zpos my)) as [q r]. destruct Hdm as [HN Hr].
  assert (Hq : 4503599627370496 <= q < 18014398509481984).
  { subst N. split; nia. }
  destruct q as [|q|q]; try lia.
  set (e' := ex - ey - 53).
  destruct (Z.lt_ge_cases (Zpos q) 9007199254740992) as [Hlt|Hge].
  - assert (Hdq : Zpos (digits2_pos q) = 53).
    { apply digits2_pos_unique.
      change (2 ^ (53 - 1)) with 4503599627370496.
      change (2 ^ 53) with 9007199254740992. lia. }
    destruct (binary_round_aux_53 (xorb sx sy) q e' (new_location (Zpos my) r))
      as (mf & k & Hres & Hk & Hv & _); [assumption | subst e'; lia |].
    exists mf, k. split; [exact Hres|]. split; [lia|].
    rewrite Hv.
    pose proof (round_quotient_53 (Zpos q) (Zpos my) r ltac:(lia) Hr) as Hb.
    replace (Zpos q * Zpos my + r) with N in Hb by lia.
    lia.
  - assert (Hdq : Zpos (digits2_pos q) = 54).
    { apply digits2_pos_unique.
      change (2 ^ (54 - 1)) with 9007199254740992.
      change (2 ^ 54) with 18014398509481984. lia. }
    destruct (binary_round_aux_54 (xorb sx sy) q e' (new_location (Zpos my) r))
      as (mf & k & Hres & Hk & Hv & _); [assumption | subst e'; lia |].
    exists mf, (1 + k). split; [rewrite Hres; f_equal; lia|]. split; [lia|].
    rewrite Z.pow_add_r by lia. change (2 ^ 1) with 2.
    replace (Zpos mf * (2 * 2 ^ k)) with (2 * (Zpos mf * 2 ^ k)) by lia.
    rewrite Hv.
    pose proof (round_quotient_54 (Zpos q) (Zpos my) r ltac:(lia) ltac:(lia) Hr) as Hb.
    replace (Zpos q * Zpos my + r) with N in Hb by lia.
    assert (Zpos my <= Zpos mx) by (subst N; nia).
    lia.
Qed.

Lemma iter_pos_iter {A : Type} (f : A -> A) (n : positive) :
  forall x, SpecFloat.iter_pos f n x = Pos.iter f x n.
Proof.
  induction n as [n IH|n IH|]; intros x; cbn [SpecFloat.iter_pos Pos.iter].
  - rewrite !IH. now rewrite <- !Pos.iter_swap.
  - now rewrite !IH.
  - reflexivity.
Qed.

(** Shifting out bits that are all zero leaves an exact record. *)
Lemma shr_zeros (n : positive) (m : positive) :
  SpecFloat.iter_pos shr_1 n (Build_shr_record (Zpos (Pos.iter xO m n)) false false) =
  Build_shr_record (Zpos m) false false.
Proof.
  rewrite iter_pos_iter. revert m.
  induction n as [|n IH] using Pos.peano_ind; intros m.
  - reflexivity.
  - rewrite Pos.iter_succ_r. rewrite Pos.iter_succ. cbn [shr_1 orb].
    apply IH.
Qed.

Lemma digits2_pos_53_unique (m1 m2 : positive) (e1 e2 : Z) :
  Zpos (digits2_pos m1) = 53 -> Zpos (digits2_pos m2) = 53 ->
  0 <= e1 -> 0 <= e2 ->
  Zpos m1 * 2 ^ e2 = Zpos m2 * 2 ^ e1 ->
  m1 = m2 /\ e1 = e2.
Proof.
  intros H1 H2 He1 He2 E.
  pose proof (digits2_pos_bounds m1) as B1. rewrite H1 in B1.
  pose proof (digits2_pos_bounds m2) as B2. rewrite H2 in B2.
  change (2 ^ (53 - 1)) with 4503599627370496 in *.
  change (2 ^ 53) with 9007199254740992 in *.
  assert (Hee : e1 = e2).
  { destruct (Z.lt_trichotomy e1 e2) as [L|[Eq|G]]; [exfalso|exact Eq|exfalso].
    - replace e2 with (e1 + (e2 - e1)) in E by lia.
      rewrite Z.pow_add_r in E by lia.
      assert (0 < 2 ^ e1) by (apply Z.pow_pos_nonneg; lia).
      assert (2 ^ 1 <= 2 ^ (e2 - e1)) by (apply Z.pow_le_mono_r; lia).
      change (2 ^ 1) with 2 in *.
      assert (Zpos m1 * 2 ^ (e2 - e1) = Zpos m2).
      { apply (Z.mul_cancel_r _ _ (2 ^ e1)); [lia|]. rewrite <- E. ring. }
      nia.
    - replace e1 with (e2 + (e1 - e2)) in E by lia.
      rewrite Z.pow_add_r in E by lia.
      assert (0 < 2 ^ e2) by (apply Z.pow_pos_nonneg; lia).
      assert (2 ^ 1 <= 2 ^ (e1 - e2)) by (apply Z.pow_le_mono_r; lia).
      change (2 ^ 1) with 2 in *.
      assert (Zpos m1 = Zpos m2 * 2 ^ (e1 - e2)).
      { apply (Z.mul_cancel_r _ _ (2 ^ e2)); [lia|]. rewrite E. ring. }
      nia. }
  split; [|exact Hee]. subst e2.
  assert (0 < 2 ^ e1) by (apply Z.pow_pos_nonneg; lia).
  apply Z.mul_cancel_r in E; [|lia]. congruence.
Qed.

Lemma digits2_pos_iter_xO (m n : positive) :
  Zpos (digits2_pos (Pos.iter xO m n)) = Zpos (digits2_pos m) + Zpos n.
Proof.
  induction n as [|n IH] using Pos.peano_ind.
  - cbn. lia.
  - rewrite Pos.iter_succ. cbn [digits2_pos]. rewrite Pos2Z.inj_succ, IH. lia.
Qed.

(** Spare zero bits below a mantissa of 53 bits are dropped without
    any rounding. *)
Lemma binary_round_aux_shift (sx : bool) (m n : positive) (e : Z) :
  Zpos (digits2_pos m) = 53 -> -1074 <= e ->
  binary_round_aux prec emax sx (Zpos (Pos.iter xO m n)) e loc_Exact =
  binary_round_aux prec emax sx (Zpos m) (e + Zpos n) loc_Exact.
Proof.
  intros Hd He.
  assert (H1 : shr_fexp prec emax (Zpos (Pos.iter xO m n)) e loc_Exact =
               (Build_shr_record (Zpos m) false false, e + Zpos n)).
  { unfold shr_fexp. cbn [Zdigits2]. rewrite digits2_pos_iter_xO, Hd.
    rewrite fexp_normal by lia.
    replace (53 + Zpos n + e - 53 - e) with (Zpos n) by lia.
    cbn [shr shr_record_of_loc]. now rewrite shr_zeros. }
  unfold binary_round_aux.
  rewrite H1, (shr_fexp_53 m (e + Zpos n) loc_Exact) by (assumption || lia).
  reflexivity.
Qed.

(** Rounding [p * 2 ^ - k], an integer of at most 53 bits written with
    [k] bits too many, gives its float with the mantissa of 53 bits. *)
Lemma binary_round_scaled (sx : bool) (p q : positive) (k : Z) :
  0 <= k <= 52 -> Zpos q < 2 ^ 53 -> Zpos p = Zpos q * 2 ^ k ->
  exists (m : positive) (a : Z),
    binary_round prec emax sx p (- k) = S754_finite sx m (- a) /\
    0 <= a <= 52 /\ Zpos m = Zpos q * 2 ^ a /\ Zpos (digits2_pos m) = 53.
Proof.
  intros Hk Hq Hp. unfold binary_round.
  pose proof (digits2_pos_bounds q) as B.
  set (d := Zpos (digits2_pos q)) in *.
  assert (Hd : 1 <= d <= 53).
  { split; [subst d; lia|].
    destruct (Z.le_gt_cases d 53); [assumption|].
    assert (2 ^ 53 <= 2 ^ (d - 1)) by (apply Z.pow_le_mono_r; lia). lia. }
  assert (Pk : 0 < 2 ^ k) by (apply Z.pow_pos_nonneg; lia).
  assert (Hdp : Zpos (digits2_pos p) = d + k).
  { apply digits2_pos_unique. rewrite Hp.
    replace (d + k - 1) with (d - 1 + k) by lia.
    rewrite !Z.pow_add_r by lia. nia. }
  rewrite Hdp. rewrite fexp_normal by lia.
  assert (Hpow : 2 ^ (d - 1) * 2 ^ (53 - d) = 2 ^ 52 /\ 2 ^ d * 2 ^ (53 - d) = 2 ^ 53).
  { rewrite <- !Z.pow_add_r by lia. split; f_equal; lia. }
  assert (Ppd : 0 < 2 ^ (53 - d)) by (apply Z.pow_pos_nonneg; lia).
  assert (Hfinal : forall mz : positive,
            Zpos mz = Zpos q * 2 ^ (53 - d) ->
            exists (m : positive) (a : Z),
              binary_round_aux prec emax sx (Zpos mz) (d - 53) loc_Exact =
                S754_finite sx m (- a) /\
              0 <= a <= 52 /\ Zpos m = Zpos q * 2 ^ a /\ Zpos (digits2_pos m) = 53).
  { intros mz Hmz.
    assert (Hdz : Zpos (digits2_pos mz) = 53).
    { apply digits2_pos_unique. change (53 - 1) with 52. nia. }
    destruct (binary_round_aux_53 sx mz (d - 53) loc_Exact)
      as (mf & j & Hr & Hj & Hv & Hdf); [assumption | lia |].
    cbn [round_nearest_even] in Hv.
    pose proof (digits2_pos_bounds mf) as Bf. rewrite Hdf in Bf.
    pose proof (digits2_pos_bounds mz) as Bz. rewrite Hdz in Bz.
    assert (j = 0) by (destruct (Z.eq_dec j 0); [assumption|];
                       replace j with 1 in * by lia; lia).
    subst j. exists mf, (53 - d). rewrite Hr.
    split; [f_equal; lia|]. repeat split; first [lia | assumption]. }
  unfold shl_align.
  destruct (Z.lt_trichotomy (d + k - 53) 0) as [L|[E|G]].
  - replace (d + k + - k - 53 - - k) with (Zneg (Z.to_pos (53 - d - k))) by lia.
    replace (d + k + - k - 53) with (d - 53) by lia.
    apply Hfinal. rewrite iter_xO_value, Z2Pos.id, Hp by lia.
    rewrite <- Z.mul_assoc, <- Z.pow_add_r by lia. do 2 f_equal. lia.
  - replace (d + k + - k - 53 - - k) with 0 by lia.
    replace (- k) with (d - 53) by lia.
    apply Hfinal. rewrite Hp. do 2 f_equal. lia.
  - replace (d + k + - k - 53 - - k) with (Zpos (Z.to_pos (d + k - 53))) by lia.
    set (n := Z.to_pos (d + k - 53)).
    assert (Hn : Zpos n = d + k - 53) by (subst n; rewrite Z2Pos.id; lia).
    set (mz := Z.to_pos (Zpos q * 2 ^ (53 - d))).
    assert (Hmz : Zpos mz = Zpos q * 2 ^ (53 - d)) by (subst mz; rewrite Z2Pos.id; lia).
    assert (Hdz : Zpos (digits2_pos mz) = 53).
    { apply digits2_pos_unique. change (53 - 1) with 52. nia. }
    assert (Hpn : p = Pos.iter xO mz n).
    { apply Pos2Z.inj. rewrite iter_xO_value, Hmz, Hn, Hp.
      rewrite <- Z.mul_assoc, <- Z.pow_add_r by lia. do 2 f_equal. lia. }
    rewrite Hpn, binary_round_aux_shift by (assumption || lia).
    replace (- k + Zpos n) with (d - 53) by lia.
    apply Hfinal. exact Hmz.
Qed.

(** The same rounding, whatever the number of spare bits: two ways of
    writing one integer give one float. *)
Lemma binary_round_same (sx : bool) (p q : positive) (k : Z) :
  0 <= k <= 52 -> Zpos q < 2 ^ 53 -> Zpos p = Zpos q * 2 ^ k ->
  binary_round prec emax sx p (- k) = binary_round prec emax sx q 0.
Proof.
  intros Hk Hq Hp.
  destruct (binary_round_scaled sx p q k Hk Hq Hp) as (m1 & a1 & H1 & Ha1 & Hm1 & Hd1).
  destruct (binary_round_scaled sx q q 0 ltac:(lia) Hq ltac:(cbn; lia))
    as (m2 & a2 & H2 & Ha2 & Hm2 & Hd2).
  change (- 0) with 0 in H2. rewrite H1, H2.
  destruct (digits2_pos_53_unique m1 m2 a1 a2 Hd1 Hd2 ltac:(lia) ltac:(lia)) as [-> ->].
  - rewrite Hm1, Hm2. ring.
  - reflexivity.
Qed.

(** Adding two integers in [float64] is exact as long as the sum, like
    the terms, is below [2 ^ 53] in size. *)
Lemma add_of_Z (a b : Z) :
  Z.abs a < 2 ^ 53 -> Z.abs b < 2 ^ 53 -> Z.abs (a + b) < 2 ^ 53 ->
  SFadd prec emax (of_Z a) (of_Z b) = of_Z (a + b).
Proof.
  intros Ha Hb Hab.
  destruct (Z.eq_dec a 0) as [->|Ha0].
  { rewrite Z.add_0_l. change (of_Z 0) with (S754_zero false).
    destruct (Z.eq_dec b 0) as [->|Hb0]; [reflexivity|].
    destruct (of_Z_normal b Hb0 Hb) as (m & e & -> & _). reflexivity. }
  destruct (of_Z_normal a Ha0 Ha) as (mx & al & Ea & Hal & Hmx & Hdx).
  destruct (Z.eq_dec b 0) as [->|Hb0].
  { rewrite Z.add_0_r, Ea. reflexivity. }
  destruct (of_Z_normal b Hb0 Hb) as (my & be & Eb & Hbe & Hmy & Hdy).
  rewrite Ea, Eb. cbn [SFadd].
  set (k := Z.max al be).
  replace (Z.min (- al) (- be)) with (- k) by lia.
  assert (Hal' : forall (m : positive) (c : Z) (z : Z),
            0 <= c <= k -> Zpos m = Z.abs z * 2 ^ c ->
            Zpos (fst (shl_align m (- c) (- k))) = Z.abs z * 2 ^ k).
  { intros m c z Hc Hm. unfold shl_align.
    destruct (Z.eq_dec c k) as [->|NE].
    - replace (- k - - k) with 0 by lia. cbn [fst]. exact Hm.
    - replace (- k - - c) with (Zneg (Z.to_pos (k - c))) by lia. cbn [fst].
      rewrite iter_xO_value, Z2Pos.id, Hm by lia.
      rewrite <- Z.mul_assoc, <- Z.pow_add_r by lia. do 2 f_equal. lia. }
  rewrite (Hal' mx al a) by (assumption || lia).
  rewrite (Hal' my be b) by (assumption || lia).
  assert (Pk : 0 < 2 ^ k) by (apply Z.pow_pos_nonneg; lia).
  replace (cond_Zopp (a <? 0) (Z.abs a * 2 ^ k)) with (a * 2 ^ k)
    by (unfold cond_Zopp; destruct (Z.ltb_spec a 0); lia).
  replace (cond_Zopp (b <? 0) (Z.abs b * 2 ^ k)) with (b * 2 ^ k)
    by (unfold cond_Zopp; destruct (Z.ltb_spec b 0); lia).
  replace (a * 2 ^ k + b * 2 ^ k) with ((a + b) * 2 ^ k) by ring.
  unfold of_Z, binary_normalize.
  destruct (a + b) as [|s|s] eqn:Es.
  - reflexivity.
  - assert (Hs : Zpos s * 2 ^ k = Zpos (Z.to_pos (Zpos s * 2 ^ k)))
      by (rewrite Z2Pos.id; lia).
    rewrite Hs. apply binary_round_same; [lia | exact Hab | lia].
  - assert (Hs : Zneg s * 2 ^ k = Zneg (Z.to_pos (Zpos s * 2 ^ k))).
    { rewrite <- (Pos2Z.opp_pos (Z.to_pos _)), Z2Pos.id by lia. lia. }
    rewrite Hs. apply binary_round_same; [lia | exact Hab | rewrite Z2Pos.id; lia].
Qed.

End FloatFacts.

(** ** Sums of columns *)

Module SumFacts.
Import Float64 FloatFacts.

Lemma int_sum_bound (col : list Z) :
  Forall int32 col -> Z.abs (int_sum col) <= 2 ^ 31 * Z.of_nat (length col).
Proof.
  induction 1 as [|v col Hv _ IH]; cbn [int_sum fold_right length].
  - lia.
  - fold (int_sum col). unfold int32 in Hv. lia.
Qed.

Lemma int_sum_app (a b : list Z) : int_sum (a ++ b) = int_sum a + int_sum b.
Proof.
  induction a as [|v a IH]; cbn [int_sum fold_right app].
  - reflexivity.
  - fold (int_sum (a ++ b)). fold (int_sum a). lia.
Qed.

Lemma int_sum_permutation (a b : list Z) :
  Permutation a b -> int_sum a = int_sum b.
Proof.
  induction 1 as [|v a b _ IH|u v a|a b c _ IH1 _ IH2];
    cbn [int_sum fold_right]; fold int_sum in *; unfold int_sum in *; lia.
Qed.

Lemma int_sum_small (col : list Z) :
  Forall int32 col -> Z.of_nat (length col) < 2 ^ 22 ->
  Z.abs (int_sum col) < 2 ^ 53.
Proof.
  intros Hc Hl. pose proof (int_sum_bound col Hc) as H.
  change (2 ^ 53) with 9007199254740992.
  change (2 ^ 31) with 2147483648 in *. change (2 ^ 22) with 4194304 in *. lia.
Qed.

(** The [float64] accumulation of fewer than [2 ^ 22] values of the
    [i4] range is exact in every order of the additions. *)
Lemma float64_sum_exact (t : summation) :
  Forall int32 (terms t) -> Z.of_nat (length (terms t)) < 2 ^ 22 ->
  float64_sum t = of_Z (int_sum (terms t)).
Proof.
  induction t as [v|l IHl r IHr]; cbn [terms float64_sum]; intros Hc Hl.
  - cbn [int_sum fold_right]. now rewrite Z.add_0_r.
  - apply Forall_app in Hc as [Hcl Hcr].
    rewrite length_app, Nat2Z.inj_add in Hl.
    rewrite IHl, IHr by (assumption || lia).
    rewrite int_sum_app. apply add_of_Z.
    + apply int_sum_small; [assumption | lia].
    + apply int_sum_small; [assumption | lia].
    + rewrite <- int_sum_app. apply int_sum_small.
      * apply Forall_app. split; assumption.
      * rewrite length_app, Nat2Z.inj_add. lia.
Qed.

(** X10. The mean that NumPy computes is the one of [np_mean], whichever
    way it adds the column up: in any order and grouping of the
    [float64] additions, for [i4] values and fewer than [2 ^ 22] rows. *)
Lemma np_mean_any_order (t : summation) (col : list Z) :
  Permutation (terms t) col ->
  Forall int32 col -> Z.of_nat (length col) < 2 ^ 22 ->
  div (float64_sum t) (of_Z (Z.of_nat (length col))) = np_mean col.
Proof.
  intros Hp Hc Hl. unfold np_mean.
  rewrite float64_sum_exact.
  - now rewrite (int_sum_permutation _ _ Hp).
  - eapply Permutation_Forall; [symmetry; exact Hp | exact Hc].
  - now rewrite (Permutation_length Hp).
Qed.

End SumFacts.

(** ** The mean and its text *)

Module MeanFacts.
Import Text TextFacts Float64 FloatFacts SumFacts FormatFacts.

Lemma combine_errors (T v mu E : Q) :
  (Qabs (v - mu) <= E)%Q ->
  (Qabs (T - 10 * v) <= Qmake 1 2)%Q ->
  (Qabs (T * Qmake 1 10 - mu) <= Qmake 1 20 + E)%Q.
Proof.
  intros H1 H2.
  apply Qabs_Qle_condition in H1 as [H1a H1b].
  apply Qabs_Qle_condition in H2 as [H2a H2b].
  apply Qabs_Qle_condition. split; lra.
Qed.

(** The value of the quotient against the exact mean, in integers. *)
Lemma quotient_error (A n mf a b k : Z) :
  0 < A -> 0 < n -> 0 < mf -> 0 <= a -> 0 <= b -> 0 <= k ->
  Z.abs (mf * 2 ^ k * (n * 2 ^ b) - A * 2 ^ a * 2 ^ 53) <= A * 2 ^ a ->
  let e := - a - - b - 53 + k in
  (e < 0 -> Z.abs (mf * n - A * 2 ^ (- e)) * 2 ^ 53 <= A * 2 ^ (- e)) /\
  (0 <= e -> Z.abs (mf * 2 ^ e * n - A) * 2 ^ 53 <= A).
Proof.
  intros HA Hn Hmf Ha Hb Hk H e.
  assert (Pa : 0 < 2 ^ a) by (apply Z.pow_pos_nonneg; lia).
  assert (Pb : 0 < 2 ^ b) by (apply Z.pow_pos_nonneg; lia).
  assert (Pk : 0 < 2 ^ k) by (apply Z.pow_pos_nonneg; lia).
  split; intros He.
  - assert (HD : 2 ^ (- e) * (2 ^ k * 2 ^ b) = 2 ^ a * 2 ^ 53).
    { rewrite <- !Z.pow_add_r by lia. f_equal. lia. }
    assert (PD : 0 < 2 ^ (- e)) by (apply Z.pow_pos_nonneg; lia).
    set (D := 2 ^ (- e)) in *. set (pa := 2 ^ a) in *.
    set (pb := 2 ^ b) in *. set (pk := 2 ^ k) in *.
    set (c := 2 ^ 53) in *.
    assert (Pc : 0 < c) by (subst c; lia).
    set (P := pk * pb) in *. assert (PP : 0 < P) by (subst P; nia).
    replace (mf * pk * (n * pb) - A * pa * c) with (P * (mf * n - A * D)) in H
      by (subst P; replace (A * pa * c) with (A * (D * (pk * pb)))
            by (rewrite HD; ring); ring).
    rewrite Z.abs_mul, (Z.abs_eq P) in H by lia.
    apply (Z.mul_le_mono_pos_l _ _ P PP).
    replace (P * (A * D)) with (A * pa * c)
      by (subst P; replace (A * pa * c) with (A * (D * (pk * pb)))
            by (rewrite HD; ring); ring).
    replace (P * (Z.abs (mf * n - A * D) * c)) with (P * Z.abs (mf * n - A * D) * c) by ring.
    apply Z.mul_le_mono_nonneg_r; lia.
  - assert (HD : 2 ^ k * 2 ^ b = 2 ^ e * (2 ^ a * 2 ^ 53)).
    { rewrite <- !Z.pow_add_r by lia. f_equal. lia. }
    assert (PE : 0 < 2 ^ e) by (apply Z.pow_pos_nonneg; lia).
    set (pe := 2 ^ e) in *. set (pa := 2 ^ a) in *.
    set (pb := 2 ^ b) in *. set (pk := 2 ^ k) in *.
    set (c := 2 ^ 53) in *.
    assert (Pc : 0 < c) by (subst c; lia).
    replace (mf * pk * (n * pb) - A * pa * c) with ((pa * c) * (mf * pe * n - A)) in H
      by (transitivity (mf * n * (pk * pb) - A * pa * c); [rewrite HD|]; ring).
    assert (Ppc : 0 < pa * c) by nia.
    rewrite Z.abs_mul, (Z.abs_eq (pa * c)) in H by lia.
    apply (Z.mul_le_mono_pos_l _ _ pa Pa).
    replace (pa * (Z.abs (mf * pe * n - A) * c)) with (pa * c * Z.abs (mf * pe * n - A)) by ring.
    lia.
Qed.

(** Against the exact quotient [A / n], the float [mf * 2 ^ e] of
    [quotient_error] is off by a part in [2 ^ 53] at most. *)
Lemma to_Q_error (A n : Z) (mf : positive) (e : Z) :
  0 < A -> 0 < n ->
  (e < 0 -> Z.abs (Zpos mf * n - A * 2 ^ (- e)) * 2 ^ 53 <= A * 2 ^ (- e)) ->
  (0 <= e -> Z.abs (Zpos mf * 2 ^ e * n - A) * 2 ^ 53 <= A) ->
  (Qabs (to_Q (S754_finite false mf e) - Qmake A (Z.to_pos n))
   <= Qmake A (Z.to_pos n) * Qmake 1 (2 ^ 53))%Q.
Proof.
  intros HA Hn Hneg Hpos. unfold to_Q.
  change (2 ^ 53)%positive with 9007199254740992%positive.
  change (2 ^ 53) with 9007199254740992 in *.
  destruct (Z.leb_spec 0 e) as [He|He].
  - specialize (Hpos He). clear Hneg.
    unfold Qabs, Qminus, Qplus, Qopp, Qmult, Qle, inject_Z. cbn [Qnum Qden].
    rewrite !Pos2Z.inj_mul, !Z2Pos.id by lia.
    set (v := Zpos mf * 2 ^ e) in *.
    replace (v * n + - A * 1) with (v * n - A) by ring.
    replace (Z.abs (v * n - A) * (n * 9007199254740992))
      with (n * (Z.abs (v * n - A) * 9007199254740992)) by ring.
    replace (A * 1 * (1 * n)) with (n * A) by ring.
    apply Z.mul_le_mono_nonneg_l; lia.
  - specialize (Hneg He). clear Hpos.
    assert (PD : 0 < 2 ^ (- e)) by (apply Z.pow_pos_nonneg; lia).
    set (D := 2 ^ (- e)) in *.
    unfold Qabs, Qminus, Qplus, Qopp, Qmult, Qle. cbn [Qnum Qden].
    rewrite !Pos2Z.inj_mul, !Z2Pos.id by lia.
    replace (Zpos mf * n + - A * D) with (Zpos mf * n - A * D) by ring.
    replace (Z.abs (Zpos mf * n - A * D) * (n * 9007199254740992))
      with (n * (Z.abs (Zpos mf * n - A * D) * 9007199254740992)) by ring.
    replace (A * 1 * (D * n)) with (n * (A * D)) by ring.
    apply Z.mul_le_mono_nonneg_l; lia.
Qed.

Lemma xorb_false_r' (b : bool) : xorb b false = b.
Proof. now destruct b. Qed.

(** The mean of a column whose sum and length are below [2 ^ 53]. *)
Lemma np_mean_value (col : list Z) :
  col <> [] ->
  Z.abs (int_sum col) < 2 ^ 53 ->
  Z.of_nat (length col) < 2 ^ 53 ->
  let s := int_sum col in
  let n := Z.of_nat (length col) in
  (s = 0 -> np_mean col = S754_zero false) /\
  (s <> 0 ->
   exists (mf : positive) (e : Z),
     np_mean col = S754_finite (s <? 0) mf e /\
     (Qabs (to_Q (S754_finite false mf e) - Qmake (Z.abs s) (Z.to_pos n))
      <= Qmake (Z.abs s) (Z.to_pos n) * Qmake 1 (2 ^ 53))%Q).
Proof.
  intros Hne Hs Hn s n.
  assert (Hn0 : 0 < n) by (subst n; destruct col; [congruence | cbn [length]; lia]).
  destruct (of_Z_normal n ltac:(lia) ltac:(lia)) as (my & b & Eny & Hb & Hmy & Hdy).
  replace (n <? 0) with false in Eny by (symmetry; apply Z.ltb_ge; lia).
  unfold np_mean. fold s. fold n. rewrite Eny. split.
  - intros ->. reflexivity.
  - intros Hs0.
    destruct (of_Z_normal s Hs0 Hs) as (mx & a & Esx & Ha & Hmx & Hdx).
    rewrite Esx.
    destruct (div_normal (s <? 0) false mx my (- a) (- b) Hdx Hdy ltac:(lia) ltac:(lia))
      as (mf & k & Hres & Hk & Hbound).
    rewrite xorb_false_r' in Hres.
    exists mf, (- a - - b - 53 + k). split; [exact Hres|].
    rewrite Hmx, Hmy, (Z.abs_eq n) in Hbound by lia.
    destruct (quotient_error (Z.abs s) n (Zpos mf) a b k
                ltac:(lia) Hn0 ltac:(lia) ltac:(lia) ltac:(lia) ltac:(lia) Hbound)
      as [Hneg Hpos].
    apply to_Q_error; (lia || assumption).
Qed.

Lemma signed_error (t s : Z) (n : positive) :
  s <> 0 ->
  (Qabs (Qmake (if s <? 0 then - t else t) 10 - Qmake s n)
   == Qabs (inject_Z t * Qmake 1 10 - Qmake (Z.abs s) n))%Q.
Proof.
  intros Hs.
  unfold Qabs, Qminus, Qplus, Qopp, Qmult, inject_Z, Qeq. cbn [Qnum Qden].
  rewrite Pos.mul_1_l. f_equal.
  destruct (Z.ltb_spec s 0); lia.
Qed.

(** The mean of a column of [i4] values with fewer than [2 ^ 22] rows
    prints as a one-decimal rendering of the exact mean. *)
Lemma mean_one_decimal (col : list Z) :
  col <> [] -> Forall int32 col -> Z.of_nat (length col) < 2 ^ 22 ->
  Spec.one_decimal_of (format_1f (np_mean col)) (Spec.reference_mean col).
Proof.
  intros Hne Hcol Hlen.
  pose proof (int_sum_bound col Hcol) as Hsum.
  assert (Hn0 : 0 < Z.of_nat (length col))
    by (destruct col; [congruence | cbn [length]; lia]).
  assert (Hs : Z.abs (int_sum col) < 2 ^ 53).
  { change (2 ^ 53) with (2 ^ 31 * 2 ^ 22). 
    change (2 ^ 31) with 2147483648 in *. change (2 ^ 22) with 4194304 in *. lia. }
  assert (Hn : Z.of_nat (length col) < 2 ^ 53).
  { change (2 ^ 53) with 9007199254740992. change (2 ^ 22) with 4194304 in *. lia. }
  destruct (np_mean_value col Hne Hs Hn) as [Hzero Hnz].
  unfold Spec.one_decimal_of, Spec.reference_mean.
  replace (Pos.of_nat (length col)) with (Z.to_pos (Z.of_nat (length col)))
    by (apply Pos2Z.inj; lia).
  set (s := int_sum col) in *. set (n := Z.to_pos (Z.of_nat (length col))) in *.
  destruct (Z.eq_dec s 0) as [E|NE].
  - rewrite (Hzero E), E. exists 0. split; [reflexivity|].
    unfold Qabs, Qminus, Qplus, Qopp, Qmult, Qle. cbn [Qnum Qden]. lia.
  - destruct (Hnz NE) as (mf & e & Hmean & Herr).
    rewrite Hmean. cbn [format_1f].
    exists (if s <? 0 then - tenths mf e else tenths mf e).
    split; [apply read_tenths_format, tenths_nonneg|].
    rewrite signed_error by exact NE.
    change (Qabs (Qmake s n)) with (Qmake (Z.abs s) n).
    apply combine_errors with (v := to_Q (S754_finite false mf e)).
    + exact Herr.
    + apply (tenths_round_half_even mf e).
Qed.

End MeanFacts.

(** * The claims *)

(** ** The aggregator *)

Module Aggregator.
Import Float64 WorldFacts MeanFacts.

(** C1. On every dataset with at least one row (and fewer than [2 ^ 22]
    rows of [i4] values) [calculate_statistics] returns, leaving the
    world alone, three texts that each read as digits, a point and
    exactly one digit, and that are a rounding to one decimal of the
    reference mean of the column, its sum divided by the number of rows:
    the text is within half a tenth of that mean, up to the relative
    error [2 ^ -53] of the one [float64] division. Two rows with the
    heart rates 80 and 100 give the [avg_heart_rate] 90.0. *)
Theorem calculate_statistics_means (w : World) (data : nat) (arr : ndarray) :
  arrays w !! data = Some arr ->
  rows_of arr <> [] ->
  int32_columns (rows_of arr) ->
  Z.of_nat (length (rows_of arr)) < 2 ^ 22 ->
  exists stats,
    calculate_statistics data w = (Ok stats, w) /\
    Spec.one_decimal_of (avg_heart_rate stats)
      (Spec.reference_mean (column heart_rate arr)) /\
    Spec.one_decimal_of (avg_systolic_bp stats)
      (Spec.reference_mean (column blood_pressure_systolic arr)) /\
    Spec.one_decimal_of (avg_glucose stats)
      (Spec.reference_mean (column glucose_level arr)) /\
    (forall r1 r2, rows_of arr = [r1; r2] -> heart_rate r1 = 80 -> heart_rate r2 = 100 ->
       avg_heart_rate stats = "90.0"%string).
Proof.
  intros Hd Hne Hcols Hlen.
  eexists. split; [apply (calculate_statistics_run _ _ _ Hd)|].
  cbn [avg_heart_rate avg_systolic_bp avg_glucose].
  assert (Hcol : forall f : Reading -> Z,
             (forall r, int32 (heart_rate r) /\ int32 (blood_pressure_systolic r) /\
                        int32 (glucose_level r) -> int32 (f r)) ->
             Spec.one_decimal_of (format_1f (np_mean (column f arr)))
               (Spec.reference_mean (column f arr))).
  { intros f Hf. apply mean_one_decimal.
    - unfold column. destruct (rows_of arr); [congruence | discriminate].
    - unfold column. apply List.Forall_map.
      eapply List.Forall_impl; [|exact Hcols]. exact Hf.
    - unfold column. now rewrite length_map. }
  split; [apply Hcol; tauto|]. split; [apply Hcol; tauto|].
  split; [apply Hcol; tauto|].
  intros r1 r2 E H1 H2. unfold column. rewrite E. cbn [map]. rewrite H1, H2.
  vm_compute. reflexivity.
Qed.

Lemma calculate_statistics_means_witness :
  let arr := Array1d Scenario.two_rows in
  let w := mkWorld {[ 0%nat := arr ]} ∅ ∅ [] in
  arrays w !! 0%nat = Some arr /\
  rows_of arr <> [] /\
  int32_columns (rows_of arr) /\
  Z.of_nat (length (rows_of arr)) < 2 ^ 22 /\
  exists stats,
    calculate_statistics 0 w = (Ok stats, w) /\
    avg_heart_rate stats = "90.0"%string.
Proof.
  intros arr w.
  assert (H1 : arrays w !! 0%nat = Some arr) by reflexivity.
  assert (H2 : rows_of arr <> []) by discriminate.
  assert (H3 : int32_columns (rows_of arr))
    by (repeat constructor; cbn; lia).
  assert (H4 : Z.of_nat (length (rows_of arr)) < 2 ^ 22) by (cbn; lia).
  repeat (split; [assumption|]).
  destruct (calculate_statistics_means w 0%nat arr H1 H2 H3 H4)
    as (stats & Hrun & _ & _ & _ & HA).
  exists stats. split; [exact Hrun|].
  apply (HA _ _ eq_refl); reflexivity.
Defined.

End Aggregator.

(** ** The classifier *)

Module Classifier.
Import CountFacts WorldFacts.

(** C2. On every dataset [find_abnormal_readings] returns, without
    touching the world, three counts taken independently of each other:
    the rows with [heart_rate > 90], with [blood_pressure_systolic > 130]
    and with [glucose_level > 110]. The comparisons are strict: leaving
    out a row whose value equals the threshold changes nothing in that
    count, and a single row with a systolic pressure of exactly 130
    gives a [high_blood_pressure] of 0. *)
Theorem find_abnormal_readings_strict_counts
    (w : World) (data : nat) (arr : ndarray) :
  arrays w !! data = Some arr ->
  exists counts,
    find_abnormal_readings data w = (Ok counts, w) /\
    high_heart_rate counts =
      Z.of_nat (Spec.count_above 90 (column heart_rate arr)) /\
    high_blood_pressure counts =
      Z.of_nat (Spec.count_above 130 (column blood_pressure_systolic arr)) /\
    high_glucose counts =
      Z.of_nat (Spec.count_above 110 (column glucose_level arr)) /\
    (forall pre r post, rows_of arr = pre ++ r :: post -> heart_rate r = 90 ->
       high_heart_rate counts =
         Z.of_nat (Spec.count_above 90 (map heart_rate (pre ++ post)))) /\
    (forall pre r post, rows_of arr = pre ++ r :: post -> blood_pressure_systolic r = 130 ->
       high_blood_pressure counts =
         Z.of_nat (Spec.count_above 130 (map blood_pressure_systolic (pre ++ post)))) /\
    (forall pre r post, rows_of arr = pre ++ r :: post -> glucose_level r = 110 ->
       high_glucose counts =
         Z.of_nat (Spec.count_above 110 (map glucose_level (pre ++ post)))) /\
    (forall r, rows_of arr = [r] -> blood_pressure_systolic r = 130 ->
       high_blood_pressure counts = 0).
Proof.
  intros Hd. eexists. split; [apply (find_abnormal_readings_run _ _ _ Hd)|].
  cbn [high_heart_rate high_blood_pressure high_glucose].
  rewrite !np_sum_bool_greater.
  assert (Hskip : forall (f : Reading -> Z) th pre r post,
             rows_of arr = pre ++ r :: post -> f r = th ->
             Spec.count_above th (column f arr) =
             Spec.count_above th (map f (pre ++ post))).
  { intros f th pre r post E Hr. unfold column. rewrite E.
    rewrite !map_app. cbn [map]. apply count_above_skip. lia. }
  repeat split; try reflexivity.
  - intros pre r post E Hr. f_equal. now apply (Hskip heart_rate 90 pre r post).
  - intros pre r post E Hr. f_equal.
    now apply (Hskip blood_pressure_systolic 130 pre r post).
  - intros pre r post E Hr. f_equal. now apply (Hskip glucose_level 110 pre r post).
  - intros r E Hr.
    rewrite (Hskip blood_pressure_systolic 130 [] r [] E Hr). reflexivity.
Qed.

Lemma find_abnormal_readings_strict_counts_witness :
  let w := mkWorld {[ 0%nat := Array0d Scenario.row_at_130 ]} ∅ ∅ [] in
  arrays w !! 0%nat = Some (Array0d Scenario.row_at_130) /\
  exists counts,
    find_abnormal_readings 0 w = (Ok counts, w) /\ high_blood_pressure counts = 0.
Proof.
  intros w. split; [reflexivity|].
  destruct (find_abnormal_readings_strict_counts w 0%nat
              (Array0d Scenario.row_at_130) eq_refl)
    as (counts & Hrun & _ & _ & _ & _ & _ & _ & H130).
  exists counts. split; [exact Hrun|].
  apply (H130 Scenario.row_at_130); reflexivity.
Defined.

End Classifier.

(** ** The reporter *)

Module Reporter.
Import Text TextFacts ReportFacts WorldFacts.

(** C5. What [generate_report] renders, for every total, statistics and
    counts, is the template of §6 with the values put in as they are and
    a blank line after it, followed by one space that the template of
    the specification does not have; the rendered text is therefore
    never exactly the specified report. *)
Theorem generate_report_stray_space
    (stats : StatisticsSummary) (abnormal : AbnormalityCounts)
    (total_readings : Z) :
  generate_report stats abnormal total_readings =
    (Spec.report stats abnormal total_readings ++ " ")%string /\
  generate_report stats abnormal total_readings <>
    Spec.report stats abnormal total_readings.
Proof.
  split; [apply generate_report_text|].
  rewrite generate_report_text. apply append_space_neq.
Qed.

(** C7. For every non-negative [n], the integer read back from the
    [Total readings] line of the report generated with [n] is [n]. *)
Theorem total_readings_round_trip
    (stats : StatisticsSummary) (abnormal : AbnormalityCounts) (n : Z) :
  0 <= n ->
  total_readings_of (generate_report stats abnormal n) = Some n.
Proof. intros _. apply total_readings_of_generate_report. Qed.

Lemma total_readings_round_trip_witness :
  0 <= 2 /\
  total_readings_of
    (generate_report (mkStats "90.0" "127.5" "107.5") (mkCounts 1 1 1) 2) = Some 2.
Proof.
  split; [lia|]. apply total_readings_round_trip. lia.
Defined.

End Reporter.

(** ** The pipeline *)

Module Pipeline.
Import Text TextFacts ReportFacts WorldFacts.

Lemma main_succeeds parse_csv (w : World) (text : string) (rows : Dataset) :
  files w !! input_path = Some text ->
  parse_csv text = Ok rows ->
  length rows <> 1%nat ->
  "output" ∈ dirs w ->
  exists stats abnormal,
    let data := fresh (dom (arrays w)) in
    let w1 := mkWorld (<[data := Array1d rows]> (arrays w)) (files w) (dirs w) (stdout w) in
    calculate_statistics data w1 = (Ok stats, w1) /\
    find_abnormal_readings data w1 = (Ok abnormal, w1) /\
    main parse_csv w =
    (Ok tt,
     mkWorld (<[data := Array1d rows]> (arrays w))
       (<[output_path := generate_report stats abnormal (Z.of_nat (length rows))]> (files w))
       (dirs w) (stdout w ++ [confirmation])).
Proof.
  intros Hf Hp Hlen Hd.
  destruct (main_run parse_csv w text rows Hf Hp Hlen)
    as (stats & abnormal & Hs & Ha & Hm).
  exists stats, abnormal. cbv zeta. repeat split; [exact Hs | exact Ha |].
  rewrite Hm. now rewrite bool_decide_eq_true_2.
Qed.

(** C3. On an empty dataset the aggregation raises nothing:
    [calculate_statistics] returns the text [nan] for each of the three
    means, and [main] on an input that parses to zero rows goes on to
    write a report with [nan] averages, zero counts and zero readings. *)
Theorem empty_dataset_gives_nan :
  (forall (w : World) (data : nat),
     arrays w !! data = Some (Array1d []) ->
     calculate_statistics data w = (Ok nan_statistics, w)) /\
  (forall parse_csv (w : World) (text : string),
     files w !! input_path = Some text ->
     parse_csv text = Ok [] ->
     "output" ∈ dirs w ->
     exists w',
       main parse_csv w = (Ok tt, w') /\
       files w' !! output_path =
         Some (generate_report nan_statistics (mkCounts 0 0 0) 0)).
Proof.
  split.
  - intros w data Hd. now rewrite (calculate_statistics_run _ _ _ Hd).
  - intros parse_csv w text Hf Hp Hd.
    destruct (main_succeeds parse_csv w text [] Hf Hp ltac:(discriminate) Hd)
      as (stats & abnormal & Hs & Ha & Hm).
    cbv zeta in *. eexists. split; [exact Hm|].
    cbn [files]. rewrite lookup_insert_eq.
    rewrite (calculate_statistics_run _ _ (Array1d [])) in Hs by apply lookup_insert_eq.
    rewrite (find_abnormal_readings_run _ _ (Array1d [])) in Ha by apply lookup_insert_eq.
    injection Hs as <-. injection Ha as <-. reflexivity.
Qed.

Lemma empty_dataset_gives_nan_witness :
  let w0 := mkWorld {[ 0%nat := Array1d [] ]} ∅ ∅ [] in
  let w := Scenario.world Scenario.header_only_csv in
  (arrays w0 !! 0%nat = Some (Array1d []) /\
   calculate_statistics 0 w0 = (Ok nan_statistics, w0)) /\
  (files w !! input_path = Some Scenario.header_only_csv /\
   Scenario.reader Scenario.header_only_csv = Ok [] /\
   "output" ∈ dirs w /\
   exists w', main Scenario.reader w = (Ok tt, w') /\
     files w' !! output_path =
       Some (generate_report nan_statistics (mkCounts 0 0 0) 0)).
Proof.
  intros w0 w.
  assert (Hd : "output" ∈ dirs w)
    by (apply (bool_decide_unpack _); vm_compute; exact I).
  split.
  - split; [reflexivity|].
    apply (proj1 empty_dataset_gives_nan w0 0%nat). reflexivity.
  - split; [reflexivity|]. split; [reflexivity|]. split; [exact Hd|].
    apply (proj2 empty_dataset_gives_nan Scenario.reader w Scenario.header_only_csv);
      [reflexivity | reflexivity | exact Hd].
Defined.

(** The claim of an [EmptyDatasetError] does not hold of the code: on
    the empty array [calculate_statistics] returns normally, and what it
    returns is [nan] three times. *)
Lemma empty_dataset_raises_nothing :
  let w := mkWorld {[ 0%nat := Array1d [] ]} ∅ ∅ [] in
  calculate_statistics 0 w = (Ok (mkStats "nan" "nan" "nan"), w) /\
  forall e, fst (calculate_statistics 0 w) <> Raise e.
Proof.
  intros w.
  assert (H : calculate_statistics 0 w = (Ok (mkStats "nan" "nan" "nan"), w))
    by reflexivity.
  split; [exact H|]. intros e. rewrite H. discriminate.
Qed.



Lemma paths_differ : output_path <> input_path.
Proof. discriminate. Qed.

(** C8. A run of [main] that succeeds leaves the input file as it was;
    a second run on the world it leaves succeeds as well and leaves the
    very same files. The report depends on the text of the input file
    alone: two runs from worlds that agree on that file write the same
    text, whatever the output file held before, since the write replaces
    the file. *)
Theorem main_idempotent parse_csv (w w1 : World) :
  main parse_csv w = (Ok tt, w1) ->
  files w1 !! input_path = files w !! input_path /\
  (exists report, files w1 = <[output_path := report]> (files w)) /\
  (exists w2, main parse_csv w1 = (Ok tt, w2) /\ files w2 = files w1) /\
  (forall v v1 : World,
     files v !! input_path = files w !! input_path ->
     main parse_csv v = (Ok tt, v1) ->
     files v1 !! output_path = files w1 !! output_path).
Proof.
  intros H.
  destruct (main_ok_inv parse_csv w w1 H) as (text & rows & Hf & Hp & Hlen & Hd).
  destruct (main_succeeds parse_csv w text rows Hf Hp Hlen Hd)
    as (stats & abnormal & Hs & Ha & Hm).
  cbv zeta in *. rewrite Hm in H. injection H as <-.
  rewrite (calculate_statistics_run _ _ (Array1d rows)) in Hs by apply lookup_insert_eq.
  rewrite (find_abnormal_readings_run _ _ (Array1d rows)) in Ha by apply lookup_insert_eq.
  injection Hs as <-. injection Ha as <-.
  cbn [files]. clear Hm.
  match goal with
  | |- context [generate_report ?s ?a ?n] => set (rep := generate_report s a n)
  end.
  assert (Hagain : forall v v1 : World,
            files v !! input_path = Some text ->
            main parse_csv v = (Ok tt, v1) ->
            files v1 = <[output_path := rep]> (files v)).
  { intros v v1 Hfv Hv.
    destruct (main_ok_inv parse_csv v v1 Hv) as (text' & rows' & Hf' & Hp' & _ & Hd').
    rewrite Hfv in Hf'. injection Hf' as <-. rewrite Hp in Hp'. injection Hp' as <-.
    destruct (main_succeeds parse_csv v text rows Hfv Hp Hlen Hd')
      as (stats' & abnormal' & Hs' & Ha' & Hm').
    cbv zeta in *. rewrite Hm' in Hv. injection Hv as <-.
    rewrite (calculate_statistics_run _ _ (Array1d rows)) in Hs' by apply lookup_insert_eq.
    rewrite (find_abnormal_readings_run _ _ (Array1d rows)) in Ha' by apply lookup_insert_eq.
    injection Hs' as <-. injection Ha' as <-.
    reflexivity. }
  split; [|split; [|split]].
  - apply lookup_insert_ne, paths_differ.
  - eexists. reflexivity.
  - set (w1 := mkWorld _ _ _ _).
    assert (Hf1 : files w1 !! input_path = Some text).
    { subst w1. cbn [files]. rewrite lookup_insert_ne by apply paths_differ. exact Hf. }
    destruct (main_succeeds parse_csv w1 text rows Hf1 Hp Hlen Hd)
      as (stats' & abnormal' & _ & _ & Hm').
    cbv zeta in Hm'. eexists. split; [exact Hm'|].
    rewrite (Hagain w1 _ Hf1 Hm'). subst w1. cbn [files].
    apply insert_insert_eq.
  - intros v v1 Hfv Hv. rewrite Hf in Hfv.
    rewrite (Hagain v v1 Hfv Hv). now rewrite !lookup_insert_eq.
Qed.

Lemma main_idempotent_witness :
  let w := Scenario.world Scenario.two_rows_csv in
  let w1 := snd (main Scenario.reader w) in
  main Scenario.reader w = (Ok tt, w1) /\
  exists w2, main Scenario.reader w1 = (Ok tt, w2) /\ files w2 = files w1.
Proof.
  intros w w1.
  assert (H : main Scenario.reader w = (Ok tt, w1)) by reflexivity.
  split; [exact H|].
  exact (proj1 (proj2 (proj2 (main_idempotent Scenario.reader w w1 H)))).
Defined.




(** When the load fails, [main] fails with the same exception and the
    world, output file included, is as before. *)
Lemma main_load_failure parse_csv (w w1 : World) (e : exn) :
  load_data parse_csv input_path w = (Raise e, w1) ->
  main parse_csv w = (Raise e, w).
Proof.
  intros H. pose proof (load_data_failure _ _ _ _ _ H) as ->.
  unfold main, bind. unfold input_path in H. now rewrite H.
Qed.

End Pipeline.

(** ** The rounding of the means *)

Module Formatting.
Import Text TextFacts Float64 FormatFacts.


(** A mean that sits just under a tie in [float64] rounds down: twenty
    heart rates that add up to 1807 have the exact mean 90.35, the
    nearest [float64] is below it, and the text is 90.3. *)
Example mean_just_below_tie :
  format_1f (np_mean (1807 :: repeat 0 19)) = "90.3"%string.
Proof. vm_compute. reflexivity. Qed.

End Formatting.

(** * Further properties of the code *)

(** ** Writing, loading and the outcomes of [main] *)

Module MoreEffects.
Import WorldFacts.



Section Loading.
Variable parse_csv : string -> result Dataset.




End Loading.




End MoreEffects.

(** ** More on the counts and the means *)

Module MoreStatistics.
Import Float64 CountFacts WorldFacts SumFacts MeanFacts FormatFacts.


(** X5. Each count of [find_abnormal_readings] lies between zero and the
    number of rows. *)
Theorem abnormal_counts_in_range (w : World) (data : nat) (arr : ndarray) :
  arrays w !! data = Some arr ->
  exists counts,
    find_abnormal_readings data w = (Ok counts, w) /\
    0 <= high_heart_rate counts <= Z.of_nat (length (rows_of arr)) /\
    0 <= high_blood_pressure counts <= Z.of_nat (length (rows_of arr)) /\
    0 <= high_glucose counts <= Z.of_nat (length (rows_of arr)).
Proof.
  intros Hd. eexists. split; [apply (find_abnormal_readings_run _ _ _ Hd)|].
  cbn [high_heart_rate high_blood_pressure high_glucose].
  rewrite !np_sum_bool_greater.
  pose proof (count_above_bound 90 (column heart_rate arr)) as H1.
  pose proof (count_above_bound 130 (column blood_pressure_systolic arr)) as H2.
  pose proof (count_above_bound 110 (column glucose_level arr)) as H3.
  unfold column in *. rewrite length_map in H1, H2, H3. lia.
Qed.

Lemma abnormal_counts_in_range_witness :
  let arr := Array1d Scenario.two_rows in
  let w := mkWorld {[ 0%nat := arr ]} ∅ ∅ [] in
  arrays w !! 0%nat = Some arr /\
  exists counts,
    find_abnormal_readings 0 w = (Ok counts, w) /\
    0 <= high_heart_rate counts <= 2.
Proof.
  intros arr w. split; [reflexivity|].
  destruct (abnormal_counts_in_range w 0%nat arr eq_refl) as (c & Hrun & H1 & _).
  exists c. split; [exact Hrun | exact H1].
Defined.

(** X6. The counts of a dataset made of two parts are the sums of the
    counts of the parts. *)
Theorem abnormal_counts_add_up (w : World) (d d1 d2 : nat) (arr arr1 arr2 : ndarray) :
  arrays w !! d = Some arr ->
  arrays w !! d1 = Some arr1 ->
  arrays w !! d2 = Some arr2 ->
  rows_of arr = rows_of arr1 ++ rows_of arr2 ->
  exists c c1 c2,
    find_abnormal_readings d w = (Ok c, w) /\
    find_abnormal_readings d1 w = (Ok c1, w) /\
    find_abnormal_readings d2 w = (Ok c2, w) /\
    high_heart_rate c = high_heart_rate c1 + high_heart_rate c2 /\
    high_blood_pressure c = high_blood_pressure c1 + high_blood_pressure c2 /\
    high_glucose c = high_glucose c1 + high_glucose c2.
Proof.
  intros H H1 H2 E. eexists _, _, _.
  split; [apply (find_abnormal_readings_run _ _ _ H)|].
  split; [apply (find_abnormal_readings_run _ _ _ H1)|].
  split; [apply (find_abnormal_readings_run _ _ _ H2)|].
  cbn [high_heart_rate high_blood_pressure high_glucose].
  unfold column, np_greater. rewrite E, !map_app, !np_sum_bool_app. auto.
Qed.

Lemma abnormal_counts_add_up_witness :
  let r1 := Scenario.row_at_130 in
  let arr := Array1d (r1 :: Scenario.two_rows) in
  let arr1 := Array0d r1 in
  let arr2 := Array1d Scenario.two_rows in
  let w := mkWorld {[ 0%nat := arr; 1%nat := arr1; 2%nat := arr2 ]} ∅ ∅ [] in
  arrays w !! 0%nat = Some arr /\
  arrays w !! 1%nat = Some arr1 /\
  arrays w !! 2%nat = Some arr2 /\
  rows_of arr = rows_of arr1 ++ rows_of arr2 /\
  exists c c1 c2,
    find_abnormal_readings 0 w = (Ok c, w) /\
    find_abnormal_readings 1 w = (Ok c1, w) /\
    find_abnormal_readings 2 w = (Ok c2, w) /\
    high_heart_rate c = high_heart_rate c1 + high_heart_rate c2.
Proof.
  intros r1 arr arr1 arr2 w.
  split; [reflexivity|]. split; [reflexivity|]. split; [reflexivity|].
  split; [reflexivity|].
  destruct (abnormal_counts_add_up w 0%nat 1%nat 2%nat arr arr1 arr2
              eq_refl eq_refl eq_refl eq_refl)
    as (c & c1 & c2 & H & H1 & H2 & Hhr & _).
  exists c, c1, c2. auto.
Defined.



Lemma read_tenths_nan : read_tenths "nan" = None.
Proof. reflexivity. Qed.

(** X8. For a dataset of [i4] values with fewer than [2 ^ 22] rows, each
    mean of [calculate_statistics] is the text [nan] exactly when the
    dataset has no rows; with a row or more it reads as a decimal. *)
Theorem nan_only_when_empty (w : World) (data : nat) (arr : ndarray) :
  arrays w !! data = Some arr ->
  int32_columns (rows_of arr) ->
  Z.of_nat (length (rows_of arr)) < 2 ^ 22 ->
  exists stats,
    calculate_statistics data w = (Ok stats, w) /\
    (avg_heart_rate stats = "nan"%string <-> rows_of arr = []) /\
    (avg_systolic_bp stats = "nan"%string <-> rows_of arr = []) /\
    (avg_glucose stats = "nan"%string <-> rows_of arr = []) /\
    (rows_of arr <> [] ->
     read_tenths (avg_heart_rate stats) <> None /\
     read_tenths (avg_systolic_bp stats) <> None /\
     read_tenths (avg_glucose stats) <> None).
Proof.
  intros Hd Hcols Hlen.
  eexists. split; [apply (calculate_statistics_run _ _ _ Hd)|].
  cbn [avg_heart_rate avg_systolic_bp avg_glucose].
  assert (Hcol : forall f : Reading -> Z,
             (forall r, int32 (heart_rate r) /\ int32 (blood_pressure_systolic r) /\
                        int32 (glucose_level r) -> int32 (f r)) ->
             (format_1f (np_mean (column f arr)) = "nan"%string <-> rows_of arr = []) /\
             (rows_of arr <> [] ->
              read_tenths (format_1f (np_mean (column f arr))) <> None)).
  { intros f Hf.
    assert (Hdec : rows_of arr <> [] ->
              read_tenths (format_1f (np_mean (column f arr))) <> None).
    { intros Hne.
      destruct (mean_one_decimal (column f arr)) as (t & Ht & _).
      - unfold column. destruct (rows_of arr); [congruence | discriminate].
      - unfold column. apply List.Forall_map.
        eapply List.Forall_impl; [|exact Hcols]. exact Hf.
      - unfold column. now rewrite length_map.
      - rewrite Ht. discriminate. }
    split; [|exact Hdec]. split.
    - intros Hnan. destruct (rows_of arr) as [|r rows] eqn:E; [reflexivity|].
      exfalso. apply Hdec; [discriminate|]. rewrite Hnan. reflexivity.
    - intros E. unfold column. rewrite E. reflexivity. }
  destruct (Hcol heart_rate ltac:(tauto)) as [N1 D1].
  destruct (Hcol blood_pressure_systolic ltac:(tauto)) as [N2 D2].
  destruct (Hcol glucose_level ltac:(tauto)) as [N3 D3].
  repeat split; auto; try apply N1; try apply N2; try apply N3.
Qed.

Lemma nan_only_when_empty_witness :
  let arr := Array1d Scenario.two_rows in
  let w := mkWorld {[ 0%nat := arr ]} ∅ ∅ [] in
  arrays w !! 0%nat = Some arr /\
  int32_columns (rows_of arr) /\
  Z.of_nat (length (rows_of arr)) < 2 ^ 22 /\
  exists stats,
    calculate_statistics 0 w = (Ok stats, w) /\
    (avg_heart_rate stats = "nan"%string <-> rows_of arr = []).
Proof.
  intros arr w.
  assert (H1 : arrays w !! 0%nat = Some arr) by reflexivity.
  assert (H3 : int32_columns (rows_of arr)) by (repeat constructor; cbn; lia).
  assert (H4 : Z.of_nat (length (rows_of arr)) < 2 ^ 22) by (cbn; lia).
  repeat (split; [assumption|]).
  destruct (nan_only_when_empty w 0%nat arr H1 H3 H4) as (stats & Hrun & Hn & _).
  exists stats. split; assumption.
Defined.

End MoreStatistics.

(** ** Means that are a whole number of tenths *)

Module ExactMeans.
Import Text TextFacts Float64 WorldFacts SumFacts MeanFacts FormatFacts.

Lemma inject_Z_close (a b : Z) :
  (inject_Z a - inject_Z b < 1)%Q -> (inject_Z b - inject_Z a < 1)%Q -> a = b.
Proof.
  unfold Qlt, Qminus, Qplus, Qopp, inject_Z. cbn [Qnum Qden]. lia.
Qed.

(** When ten times the sum is a multiple [T] of the number of rows, so
    that the exact mean is [T] tenths, the text of the mean reads back
    as [T]: an exact mean is printed exactly. *)
Lemma exact_mean_tenths (col : list Z) (T : Z) :
  col <> [] -> Forall int32 col -> Z.of_nat (length col) < 2 ^ 22 ->
  10 * int_sum col = T * Z.of_nat (length col) ->
  read_tenths (format_1f (np_mean col)) = Some T.
Proof.
  intros Hne Hcol Hlen HT.
  pose proof (int_sum_bound col Hcol) as Hsum.
  assert (Hn0 : 0 < Z.of_nat (length col))
    by (destruct col; [congruence | cbn [length]; lia]).
  pose proof (int_sum_small col Hcol Hlen) as Hs.
  assert (Hn : Z.of_nat (length col) < 2 ^ 53).
  { change (2 ^ 53) with 9007199254740992. change (2 ^ 22) with 4194304 in *. lia. }
  destruct (np_mean_value col Hne Hs Hn) as [Hzero Hnz].
  set (s := int_sum col) in *. set (n := Z.of_nat (length col)) in *.
  destruct (Z.eq_dec s 0) as [E|NE].
  - rewrite (Hzero E). rewrite E in HT.
    assert (T = 0) by nia. subst T. reflexivity.
  - destruct (Hnz NE) as (mf & e & Hmean & Herr).
    rewrite Hmean. cbn [format_1f].
    rewrite read_tenths_format by apply tenths_nonneg.
    pose proof (tenths_round_half_even mf e) as [Hround _].
    set (t := tenths mf e) in *.
    set (v := to_Q (S754_finite false mf e)) in *.
    set (mu := Qmake (Z.abs s) (Z.to_pos n)) in *.
    assert (F1 : (10 * mu == inject_Z (Z.abs T))%Q).
    { subst mu. unfold Qeq, Qmult, inject_Z. cbn [Qnum Qden].
      rewrite Pos.mul_1_l, Z2Pos.id by lia.
      rewrite Z.mul_1_r. rewrite <- (Z.abs_eq 10) at 1 by lia.
      rewrite <- Z.abs_mul, HT, Z.abs_mul, (Z.abs_eq n) by lia. reflexivity. }
    assert (F2 : (mu <= inject_Z 2147483648)%Q).
    { subst mu. unfold Qle, inject_Z. cbn [Qnum Qden].
      rewrite Z2Pos.id by lia. change (2 ^ 31) with 2147483648 in Hsum. lia. }
    assert (F3 : (0 <= mu)%Q).
    { subst mu. unfold Qle. cbn [Qnum Qden]. lia. }
    change (2 ^ 53)%positive with 9007199254740992%positive in Herr.
    apply Qabs_Qle_condition in Herr as [E1 E2].
    apply Qabs_Qle_condition in Hround as [R1 R2].
    change (inject_Z 2147483648) with (Qmake 2147483648 1) in F2.
    assert (Ht : t = Z.abs T).
    { apply inject_Z_close; lra. }
    rewrite Ht. f_equal.
    destruct (Z.ltb_spec s 0); nia.
Qed.

(** X9. An exact mean is printed exactly: for a dataset of [i4] values
    with at least one row and fewer than [2 ^ 22], when the exact mean
    of a column is a whole number [T] of tenths, the text that
    [calculate_statistics] returns for it reads back as [T]; in
    particular a column whose values are all [v] has the mean text of
    [v] with the decimal 0. *)
Theorem exact_means_print_exactly (w : World) (data : nat) (arr : ndarray) :
  arrays w !! data = Some arr ->
  rows_of arr <> [] ->
  int32_columns (rows_of arr) ->
  Z.of_nat (length (rows_of arr)) < 2 ^ 22 ->
  exists stats,
    calculate_statistics data w = (Ok stats, w) /\
    (forall T, 10 * int_sum (column heart_rate arr) =
               T * Z.of_nat (length (rows_of arr)) ->
       read_tenths (avg_heart_rate stats) = Some T) /\
    (forall T, 10 * int_sum (column blood_pressure_systolic arr) =
               T * Z.of_nat (length (rows_of arr)) ->
       read_tenths (avg_systolic_bp stats) = Some T) /\
    (forall T, 10 * int_sum (column glucose_level arr) =
               T * Z.of_nat (length (rows_of arr)) ->
       read_tenths (avg_glucose stats) = Some T) /\
    (forall v, Forall (fun r => heart_rate r = v) (rows_of arr) ->
       read_tenths (avg_heart_rate stats) = Some (10 * v)).
Proof.
  intros Hd Hne Hcols Hlen.
  eexists. split; [apply (calculate_statistics_run _ _ _ Hd)|].
  cbn [avg_heart_rate avg_systolic_bp avg_glucose].
  assert (Hcol : forall (f : Reading -> Z) T,
             (forall r, int32 (heart_rate r) /\ int32 (blood_pressure_systolic r) /\
                        int32 (glucose_level r) -> int32 (f r)) ->
             10 * int_sum (column f arr) = T * Z.of_nat (length (rows_of arr)) ->
             read_tenths (format_1f (np_mean (column f arr))) = Some T).
  { intros f T Hf HT. apply exact_mean_tenths.
    - unfold column. destruct (rows_of arr); [congruence | discriminate].
    - unfold column. apply List.Forall_map.
      eapply List.Forall_impl; [|exact Hcols]. exact Hf.
    - unfold column. now rewrite length_map.
    - unfold column at 2. now rewrite length_map. }
  split; [intros T HT; apply Hcol; [tauto | exact HT]|].
  split; [intros T HT; apply Hcol; [tauto | exact HT]|].
  split; [intros T HT; apply Hcol; [tauto | exact HT]|].
  intros v Hv. apply Hcol; [tauto|].
  unfold column. clear - Hv. induction Hv as [|r rows Hr _ IH].
  - cbn [map int_sum fold_right length]. lia.
  - cbn [map int_sum fold_right length]. fold (int_sum (map heart_rate rows)).
    rewrite Hr. lia.
Qed.

Lemma exact_means_print_exactly_witness :
  let arr := Array1d Scenario.two_rows in
  let w := mkWorld {[ 0%nat := arr ]} ∅ ∅ [] in
  arrays w !! 0%nat = Some arr /\
  rows_of arr <> [] /\
  int32_columns (rows_of arr) /\
  Z.of_nat (length (rows_of arr)) < 2 ^ 22 /\
  10 * int_sum (column blood_pressure_systolic arr) =
    1275 * Z.of_nat (length (rows_of arr)) /\
  exists stats,
    calculate_statistics 0 w = (Ok stats, w) /\
    read_tenths (avg_systolic_bp stats) = Some 1275.
Proof.
  intros arr w.
  assert (H1 : arrays w !! 0%nat = Some arr) by reflexivity.
  assert (H2 : rows_of arr <> []) by discriminate.
  assert (H3 : int32_columns (rows_of arr)) by (repeat constructor; cbn; lia).
  assert (H4 : Z.of_nat (length (rows_of arr)) < 2 ^ 22) by (cbn; lia).
  assert (H5 : 10 * int_sum (column blood_pressure_systolic arr) =
               1275 * Z.of_nat (length (rows_of arr))) by reflexivity.
  repeat (split; [assumption|]).
  destruct (exact_means_print_exactly w 0%nat arr H1 H2 H3 H4)
    as (stats & Hrun & _ & Hbp & _).
  exists stats. split; [exact Hrun|]. apply Hbp. exact H5.
Defined.

Lemma np_mean_any_order_witness :
  let t := Plus (Term 80) (Plus (Term 100) (Term 90)) in
  let col := [80; 100; 90] in
  Permutation (terms t) col /\
  Forall int32 col /\
  Z.of_nat (length col) < 2 ^ 22 /\
  div (float64_sum t) (of_Z (Z.of_nat (length col))) = np_mean col.
Proof.
  intros t col.
  assert (H1 : Permutation (terms t) col) by reflexivity.
  assert (H2 : Forall int32 col) by (repeat constructor; cbn; lia).
  assert (H3 : Z.of_nat (length col) < 2 ^ 22) by (cbn; lia).
  repeat (split; [assumption|]).
  apply (np_mean_any_order t col H1 H2 H3).
Defined.

End ExactMeans.

(** ** The lines of the report *)

Module MoreReport.
Import Text TextFacts ReportFacts Float64 FormatFacts WorldFacts.

Lemma eqb_longer (v suffix : string) (c : ascii) :
  String.eqb (String c (v ++ suffix)) suffix = false.
Proof.
  apply String.eqb_neq. intros E. apply (f_equal String.length) in E.
  cbn [String.length] in E. rewrite length_append in E. lia.
Qed.

Lemma strip_suffix_app (v suffix : string) :
  strip_suffix suffix (v ++ suffix) = Some v.
Proof.
  induction v as [|c v IH]; unfold_append.
  - destruct suffix; cbn [strip_suffix]; now rewrite String.eqb_refl.
  - cbn [strip_suffix]. rewrite eqb_longer, IH. reflexivity.
Qed.

Lemma all_digits_app (a b : string) :
  all_digits (a ++ b) = all_digits a && all_digits b.
Proof.
  induction a as [|c a IH]; unfold_append; cbn [all_digits]; [reflexivity|].
  now rewrite IH, andb_assoc.
Qed.

Lemma format_tenths_no_newline (s : bool) (t : Z) :
  no_newline (format_tenths s t) = true.
Proof.
  unfold format_tenths. rewrite !no_newline_app.
  rewrite (all_digits_no_newline _ (string_of_N_all_digits _)).
  cbn [no_newline]. rewrite digit_char_not_newline by lia.
  now destruct s.
Qed.

(** The text of a mean never holds a line feed. *)
Lemma format_1f_no_newline (x : spec_float) : no_newline (format_1f x) = true.
Proof.
  destruct x as [s|s| |s m e]; cbn [format_1f];
    try apply format_tenths_no_newline; try reflexivity.
  now destruct s.
Qed.

(** The report has seventeen lines as long as no mean text holds a line
    feed: the fifteen of the template with the values in their places,
    an empty one, and a last one that holds a single space. *)
Lemma lines_generate_report
    (stats : StatisticsSummary) (abnormal : AbnormalityCounts) (n : Z) :
  no_newline (avg_heart_rate stats) = true ->
  no_newline (avg_systolic_bp stats) = true ->
  no_newline (avg_glucose stats) = true ->
  lines (generate_report stats abnormal n) =
  Spec.template_lines (string_of_Z n)
    (avg_heart_rate stats) (avg_systolic_bp stats) (avg_glucose stats)
    (string_of_Z (high_heart_rate abnormal))
    (string_of_Z (high_blood_pressure abnormal))
    (string_of_Z (high_glucose abnormal))
  ++ [""; " "]%string.
Proof.
  intros H1 H2 H3.
  rewrite generate_report_text. unfold Spec.report.
  rewrite lines_unlines_prefix.
  - rewrite <- app_assoc. reflexivity.
  - unfold Spec.template_lines. cbn [app].
    repeat constructor;
      rewrite ?no_newline_app, ?string_of_Z_no_newline, ?H1, ?H2, ?H3;
      reflexivity.
Qed.

Lemma report_fields
    (stats : StatisticsSummary) (abnormal : AbnormalityCounts) (n : Z) :
  no_newline (avg_heart_rate stats) = true ->
  no_newline (avg_systolic_bp stats) = true ->
  no_newline (avg_glucose stats) = true ->
  fields_read_back stats abnormal (generate_report stats abnormal n).
Proof.
  intros H1 H2 H3. unfold fields_read_back, count_of, field_of.
  rewrite (lines_generate_report stats abnormal n H1 H2 H3).
  unfold Spec.template_lines. cbn [app].
  repeat split; rewrite !find_field_skip by reflexivity;
    rewrite find_field_here, strip_suffix_app;
    first [reflexivity | apply parse_Z_string_of_Z].
Qed.

(** X11. Every value put into the report can be read back from it, as long
    as no mean text holds a line feed: the mean texts between their
    labels and units, the counts before [ readings], the total after
    its label. *)
Theorem report_fields_round_trip
    (stats : StatisticsSummary) (abnormal : AbnormalityCounts) (n : Z) :
  no_newline (avg_heart_rate stats) = true ->
  no_newline (avg_systolic_bp stats) = true ->
  no_newline (avg_glucose stats) = true ->
  let report := generate_report stats abnormal n in
  total_readings_of report = Some n /\
  field_of "- Heart Rate: " " bpm" report = Some (avg_heart_rate stats) /\
  field_of "- Systolic Blood Pressure: " " mmHg" report = Some (avg_systolic_bp stats) /\
  field_of "- Glucose Level: " " mg/dL" report = Some (avg_glucose stats) /\
  count_of "- High Heart Rate (>90 bpm): " report = Some (high_heart_rate abnormal) /\
  count_of "- High Systolic Blood Pressure (>130 mmHg): " report =
    Some (high_blood_pressure abnormal) /\
  count_of "- High Glucose Level (>110 mg/dL): " report = Some (high_glucose abnormal).
Proof.
  intros H1 H2 H3 report.
  split; [apply total_readings_of_generate_report|].
  exact (report_fields stats abnormal n H1 H2 H3).
Qed.

Lemma report_fields_round_trip_witness :
  let stats := mkStats "90.0" "127.5" "107.5" in
  let report := generate_report stats (mkCounts 1 0 2) 2 in
  field_of "- Systolic Blood Pressure: " " mmHg" report = Some "127.5"%string /\
  count_of "- High Glucose Level (>110 mg/dL): " report = Some 2.
Proof.
  intros stats report.
  destruct (report_fields_round_trip stats (mkCounts 1 0 2) 2 eq_refl eq_refl eq_refl)
    as (_ & _ & Hbp & _ & _ & _ & Hgl).
  split; [exact Hbp | exact Hgl].
Defined.

(** X12. Two reports are the same text only when they were made from the
    same seven values: no two datasets' results share a report. *)
Theorem generate_report_injective
    (stats stats' : StatisticsSummary) (abnormal abnormal' : AbnormalityCounts)
    (n n' : Z) :
  no_newline (avg_heart_rate stats) = true ->
  no_newline (avg_systolic_bp stats) = true ->
  no_newline (avg_glucose stats) = true ->
  no_newline (avg_heart_rate stats') = true ->
  no_newline (avg_systolic_bp stats') = true ->
  no_newline (avg_glucose stats') = true ->
  generate_report stats abnormal n = generate_report stats' abnormal' n' ->
  stats = stats' /\ abnormal = abnormal' /\ n = n'.
Proof.
  intros H1 H2 H3 H1' H2' H3' E.
  pose proof (total_readings_of_generate_report stats abnormal n) as Hn.
  pose proof (report_fields stats abnormal n H1 H2 H3) as Hf.
  rewrite E in Hn, Hf.
  rewrite total_readings_of_generate_report in Hn.
  destruct (report_fields stats' abnormal' n' H1' H2' H3')
    as (F1 & F2 & F3 & F4 & F5 & F6).
  destruct Hf as (G1 & G2 & G3 & G4 & G5 & G6).
  rewrite F1 in G1. rewrite F2 in G2. rewrite F3 in G3.
  rewrite F4 in G4. rewrite F5 in G5. rewrite F6 in G6.
  destruct stats, stats', abnormal, abnormal'. cbn in *.
  repeat split; congruence.
Qed.

Lemma generate_report_injective_witness :
  let stats := mkStats "90.0" "127.5" "107.5" in
  generate_report stats (mkCounts 1 0 2) 2 = generate_report stats (mkCounts 1 0 2) 2 /\
  (stats = stats /\ mkCounts 1 0 2 = mkCounts 1 0 2 /\ 2 = 2).
Proof.
  intros stats. split; [reflexivity|].
  exact (generate_report_injective stats stats (mkCounts 1 0 2) (mkCounts 1 0 2) 2 2
           eq_refl eq_refl eq_refl eq_refl eq_refl eq_refl eq_refl).
Defined.

End MoreReport.

(** ** What the written report says about the input *)

Module WholeRun.
Import Text TextFacts ReportFacts CountFacts WorldFacts.

(** X13. After a run of [main] that comes back, the file at the output path
    can be read back field by field: each count line gives the number
    of input rows strictly above its threshold, each average line the
    one-decimal text of the [float64] mean of its column; the input
    file is still what it was. *)
Theorem written_report_tells_the_data parse_csv (w w' : World) :
  main parse_csv w = (Ok tt, w') ->
  exists text rows report,
    files w !! input_path = Some text /\ parse_csv text = Ok rows /\
    files w' !! input_path = Some text /\
    files w' !! output_path = Some report /\
    count_of "- High Heart Rate (>90 bpm): " report =
      Some (Z.of_nat (Spec.count_above 90 (map heart_rate rows))) /\
    count_of "- High Systolic Blood Pressure (>130 mmHg): " report =
      Some (Z.of_nat (Spec.count_above 130 (map blood_pressure_systolic rows))) /\
    count_of "- High Glucose Level (>110 mg/dL): " report =
      Some (Z.of_nat (Spec.count_above 110 (map glucose_level rows))) /\
    field_of "- Heart Rate: " " bpm" report =
      Some (Float64.format_1f (np_mean (map heart_rate rows))) /\
    field_of "- Systolic Blood Pressure: " " mmHg" report =
      Some (Float64.format_1f (np_mean (map blood_pressure_systolic rows))) /\
    field_of "- Glucose Level: " " mg/dL" report =
      Some (Float64.format_1f (np_mean (map glucose_level rows))).
Proof.
  intros H.
  destruct (main_ok_inv parse_csv w w' H) as (text & rows & Hf & Hp & Hlen & Hd).
  destruct (main_run parse_csv w text rows Hf Hp Hlen) as (stats & abnormal & Hs & Ha & Hm).
  cbv zeta in Hs, Ha, Hm.
  rewrite Hm, bool_decide_eq_true_2 in H by exact Hd. injection H as <-.
  set (data := fresh (dom (arrays w))) in *.
  set (w1 := mkWorld (<[data := Array1d rows]> (arrays w)) (files w) (dirs w) (stdout w)) in *.
  assert (Hdata : arrays w1 !! data = Some (Array1d rows)) by apply lookup_insert_eq.
  rewrite (calculate_statistics_run _ _ _ Hdata) in Hs.
  rewrite (find_abnormal_readings_run _ _ _ Hdata) in Ha.
  injection Hs as <-. injection Ha as <-.
  unfold column. cbn [rows_of].
  set (stats := mkStats _ _ _). set (abnormal := mkCounts _ _ _).
  exists text, rows, (generate_report stats abnormal (Z.of_nat (length rows))).
  split; [exact Hf|]. split; [exact Hp|]. cbn [files].
  split; [rewrite lookup_insert_ne by discriminate; exact Hf|].
  split; [apply lookup_insert_eq|].
  destruct (MoreReport.report_fields stats abnormal (Z.of_nat (length rows)))
    as (F1 & F2 & F3 & F4 & F5 & F6);
    try apply MoreReport.format_1f_no_newline.
  subst stats abnormal. cbn [avg_heart_rate avg_systolic_bp avg_glucose
    high_heart_rate high_blood_pressure high_glucose] in *.
  rewrite !np_sum_bool_greater in *. auto 10.
Qed.

Lemma written_report_tells_the_data_witness :
  let w := Scenario.world Scenario.two_rows_csv in
  let r := main Scenario.reader w in
  r = (Ok tt, snd r) /\
  exists report,
    files (snd r) !! output_path = Some report /\
    count_of "- High Heart Rate (>90 bpm): " report = Some 1 /\
    field_of "- Heart Rate: " " bpm" report = Some "90.0"%string.
Proof.
  intros w r.
  assert (H : r = (Ok tt, snd r)) by (vm_compute; reflexivity).
  split; [exact H|].
  destruct (written_report_tells_the_data Scenario.reader w (snd r) H)
    as (text & rows & report & Hf & Hp & _ & Hr & C1 & _ & _ & M1 & _).
  assert (E : files w !! input_path = Some Scenario.two_rows_csv) by reflexivity.
  rewrite E in Hf. injection Hf as <-.
  assert (E' : Scenario.reader Scenario.two_rows_csv = Ok Scenario.two_rows)
    by reflexivity.
  rewrite E' in Hp. injection Hp as <-.
  exists report. split; [exact Hr|]. split; [exact C1 | exact M1].
Defined.

End WholeRun.
